(** * HardenedBSD PaX flag control plane: sys/hardenedbsd/hbsd_pax_common.c

    A shallow embedding of the flag validators, the request resolver, the
    flag storage, the image-activation aggregator [pax_elf], the jail
    policy initializer and the feature-state validators, followed by the
    properties the design document states about them.

    Conventions
    - [pax_flag_t] and [pax_state_t] values are [Z]; the width of
      [pax_flag_t] and every constant of <sys/pax.h> are fields of
      [pax_header], since that header is not among the sources.
    - Pointers ([struct proc *], [struct thread *], [struct prison *]) are
      addresses of type [N]; the kernel memory they point into is a pair
      of finite maps.  Dereferencing an address that holds no object is a
      fault, which stops the kernel like a failed KASSERT does.
    - Every preprocessor symbol the file branches on is a boolean field of
      [kernel_config].
    - Kernel code runs in the monad [kern]: state, a trace of observable
      events (log lines, lock operations, calls into collaborators), and
      panics. *)

From Stdlib Require Import ZArith Lia Bool.
From stdpp Require Import base option list gmap strings.

Local Open Scope string_scope.
Local Open Scope list_scope.
Local Open Scope Z_scope.

(** ** Declarations taken from headers *)

(** <sys/pax.h>: the width of [pax_flag_t], the note masks and the
    feature-state enumerators used by this file. *)
Record pax_header : Type := {
  pax_flag_bits : Z;
  PAX_NOTE_ALL : Z;
  PAX_NOTE_ALL_ENABLED : Z;
  PAX_NOTE_ALL_DISABLED : Z;
  PAX_NOTE_PREFER_ACL : Z;
  PAX_LOG_DEFAULT : Z;
  PAX_FEATURE_DISABLED : Z;
  PAX_FEATURE_OPTIN : Z;
  PAX_FEATURE_OPTOUT : Z;
  PAX_FEATURE_FORCE_ENABLED : Z;
  PAX_FEATURE_SIMPLE_DISABLED : Z;
  PAX_FEATURE_SIMPLE_ENABLED : Z
}.

(** The kernel options and platform macros tested with #ifdef. *)
Record kernel_config : Type := {
  INVARIANTS : bool;
  HBSD_DEBUG : bool;
  PAX_CONTROL_ACL : bool;
  PAX_CONTROL_ACL_OVERRIDE_SUPPORT : bool;
  PAX_CONTROL_EXTATTR : bool;
  PAX_ASLR : bool;
  MAP_32BIT : bool;
  PAX_NOEXEC : bool;
  PAX_SEGVGUARD : bool;
  PAX_HARDENING : bool;
  COMPAT_FREEBSD32 : bool;
  PAX_JAIL_SUPPORT : bool
}.

(** <sys/errno.h> *)
Definition ENOENT : Z := 2.
Definition ENOEXEC : Z := 8.

(** ** Kernel objects *)

(** [struct thread]: the owning process and the thread's copy of the
    flags. *)
Record thread : Type := {
  td_proc : N;
  td_pax : Z
}.

(** [struct proc]: the process' flags and its thread queue, in the order
    FOREACH_THREAD_IN_PROC visits it. *)
Record proc : Type := {
  p_pax : Z;
  p_threads : list N
}.

(** The part of kernel memory the flag storage works on. *)
Record kstate : Type := {
  ks_procs : gmap N proc;
  ks_threads : gmap N thread;
  ks_curthread : N
}.

(** [struct image_params]: the owning process and the two raw requests
    ([imgp->pax.req_acl_flags], [imgp->pax.req_extattr_flags]). *)
Record image_params : Type := {
  imgp_proc : N;
  req_acl_flags : Z;
  req_extattr_flags : Z
}.

(** ** Observable events *)

Inductive event : Type :=
| EvCall (fn : string) (rc : Z)
    (* a collaborator was invoked and returned [rc] *)
| EvLogKernel (level : Z) (fmt : string) (arg : option Z)
    (* pax_log_internal_imgp *)
| EvLogUser (fmt : string) (arg : option Z)
    (* pax_ulog_internal *)
| EvKtr (fmt : string)
    (* CTR2 / CTR3 trace point *)
| EvProcLock (p : N)
| EvProcUnlock (p : N).

Definition is_lock_op (e : event) : bool :=
  match e with EvProcLock _ | EvProcUnlock _ => true | _ => false end.

(** ** The kernel monad *)

Inductive result (S A : Type) : Type :=
| Done (a : A) (s : S) (tr : list event)
| Panic (msg : string) (tr : list event).
Arguments Done {S A} a s tr.
Arguments Panic {S A} msg tr.

Definition kern (S A : Type) : Type := S -> result S A.

#[global] Instance kern_ret {S} : MRet (kern S) :=
  fun A a s => Done a s [].

#[global] Instance kern_bind {S} : MBind (kern S) :=
  fun A B f m s =>
    match m s with
    | Done a s1 tr1 =>
        match f a s1 with
        | Done b s2 tr2 => Done b s2 (tr1 ++ tr2)
        | Panic msg tr2 => Panic msg (tr1 ++ tr2)
        end
    | Panic msg tr1 => Panic msg tr1
    end.

Definition emit {S} (e : event) : kern S unit :=
  fun s => Done tt s [e].

Definition gets {S A} (f : S -> A) : kern S A :=
  fun s => Done (f s) s [].

Definition modify {S} (f : S -> S) : kern S unit :=
  fun s => Done tt (f s) [].

Definition panic {S A} (msg : string) : kern S A :=
  fun _ => Panic msg [].

(** A call into a collaborator that may update the state; the call and its
    return value are recorded. *)
Definition extern {S} (fn : string) (f : S -> Z * S) : kern S Z :=
  fun s => let '(rc, s1) := f s in Done rc s1 [EvCall fn rc].

Fixpoint foreach {S A} (l : list A) (body : A -> kern S unit) : kern S unit :=
  match l with
  | [] => mret tt
  | x :: l' => body x ;; foreach l' body
  end.

(** The trace of a run, whatever its outcome. *)
Definition trace_of {S A} (r : result S A) : list event :=
  match r with Done _ _ tr => tr | Panic _ tr => tr end.

(** A computation that neither changes the state nor leaves a trace. *)
Definition read_only {S A} (m : kern S A) : Prop :=
  forall s,
    match m s with
    | Done _ s1 tr => s1 = s /\ tr = []
    | Panic _ tr => tr = []
    end.

Section Kernel.

Variable K : kernel_config.
Variable H : pax_header.

(** KASSERT(cond, msg): with INVARIANTS the condition is evaluated and a
    false one panics; without, the condition is not even evaluated. *)
Definition KASSERT {S} (cond : kern S bool) (msg : string) : kern S unit :=
  if INVARIANTS K then
    b ← cond;
    if (b : bool) then mret tt else panic msg
  else mret tt.

(** [*td] and [*p]: reading through a pointer. *)
Definition thread_at (td : N) : kern kstate thread :=
  fun s =>
    match ks_threads s !! td with
    | Some t => Done t s []
    | None => Panic "page fault" []
    end.

Definition proc_at (p : N) : kern kstate proc :=
  fun s =>
    match ks_procs s !! p with
    | Some pr => Done pr s []
    | None => Panic "page fault" []
    end.

Definition store_thread (td : N) (t : thread) (s : kstate) : kstate :=
  {| ks_procs := ks_procs s;
     ks_threads := <[td := t]> (ks_threads s);
     ks_curthread := ks_curthread s |}.

Definition store_proc (p : N) (pr : proc) (s : kstate) : kstate :=
  {| ks_procs := <[p := pr]> (ks_procs s);
     ks_threads := ks_threads s;
     ks_curthread := ks_curthread s |}.

Definition PROC_LOCK (p : N) : kern kstate unit :=
  proc_at p ;; emit (EvProcLock p).

Definition PROC_UNLOCK (p : N) : kern kstate unit :=
  proc_at p ;; emit (EvProcUnlock p).

(** ** Arithmetic on pax_flag_t *)

Definition pax_flag_wrap (x : Z) : Z := x mod 2 ^ pax_flag_bits H.

(** [~x] *)
Definition pax_flag_not (x : Z) : Z := pax_flag_wrap (Z.lnot x).

(** ** Flag storage *)

Definition pax_get_flags (p : N) : kern kstate Z :=
  KASSERT (cur ← gets ks_curthread;
           t ← thread_at cur;
           mret (N.eqb p (td_proc t)))
          "%s: p != curthread->td_proc" ;;
  (if HBSD_DEBUG K then
     pr ← proc_at p;
     foreach (p_threads pr) (fun td =>
       KASSERT (t ← thread_at td;
                pr' ← proc_at p;
                mret (Z.eqb (td_pax t) (p_pax pr')))
               "%s: td->td_pax != p->p_pax")
   else mret tt) ;;
  pr ← proc_at p;
  mret (p_pax pr).

Definition pax_get_flags_td (td : N) : kern kstate Z :=
  KASSERT (cur ← gets ks_curthread; mret (N.eqb td cur))
          "%s: td != curthread" ;;
  (if HBSD_DEBUG K then
     t ← thread_at td;
     let p := td_proc t in
     pr ← proc_at p;
     foreach (p_threads pr) (fun td0 =>
       KASSERT (t0 ← thread_at td0; mret (N.eqb (td_proc t0) p))
               "%s: td0->td_proc != p" ;;
       KASSERT (t0 ← thread_at td0;
                pr' ← proc_at p;
                mret (Z.eqb (td_pax t0) (p_pax pr')))
               "%s: td0->td_pax != p->p_pax")
   else mret tt) ;;
  t ← thread_at td;
  mret (td_pax t).

Definition pax_set_flags_td (td : N) (flags : Z) : kern kstate unit :=
  t ← thread_at td;
  modify (store_thread td {| td_proc := td_proc t; td_pax := flags |}).

Definition pax_set_flags (p td : N) (flags : Z) : kern kstate unit :=
  KASSERT (cur ← gets ks_curthread; mret (N.eqb td cur))
          "%s: td != curthread" ;;
  KASSERT (t ← thread_at td; mret (N.eqb (td_proc t) p))
          "%s: td->td_proc != p" ;;
  PROC_LOCK p ;;
  pr ← proc_at p;
  modify (store_proc p {| p_pax := flags; p_threads := p_threads pr |}) ;;
  foreach (p_threads pr) (fun td0 => pax_set_flags_td td0 flags) ;;
  PROC_UNLOCK p.

(** ** Flag validator *)

Definition pax_validate_flags (flags : Z) : Z :=
  if negb (Z.eqb (Z.land flags (pax_flag_not (PAX_NOTE_ALL H))) 0) then 1
  else 0.

Definition pax_check_conflicting_modes (mode : Z) : Z :=
  if negb (Z.eqb
             (Z.land (Z.land mode (PAX_NOTE_ALL_ENABLED H))
                     (Z.shiftr (Z.land mode (PAX_NOTE_ALL_DISABLED H)) 1))
             0)
  then 1
  else 0.

(** ** Request resolver *)

Definition pax_get_requested_flags (imgp : image_params) : Z :=
  let req_flags := 0 in
  if PAX_CONTROL_ACL K && PAX_CONTROL_EXTATTR K then
    let req_flags :=
      if negb (Z.eqb (Z.land (req_acl_flags imgp) (PAX_NOTE_PREFER_ACL H)) 0)
      then req_acl_flags imgp
      else req_extattr_flags imgp in
    if Z.eqb req_flags 0 && negb (Z.eqb (req_acl_flags imgp) 0)
    then req_acl_flags imgp
    else req_flags
  else if PAX_CONTROL_EXTATTR K then
    if negb (Z.eqb (req_extattr_flags imgp) 0) then req_extattr_flags imgp
    else 0
  else if PAX_CONTROL_ACL K then
    if negb (Z.eqb (req_acl_flags imgp) 0) then req_acl_flags imgp else 0
  else req_flags.

End Kernel.

(** ** Mitigation aggregator *)

(** The flag-setup entry points of the mitigation engines.  They live in
    the engines' own files; each maps (imgp, td, mode) to the flags the
    engine contributes. *)
Record pax_engines : Type := {
  pax_aslr_setup_flags : image_params -> N -> Z -> Z;
  pax_disallow_map32bit_setup_flags : image_params -> N -> Z -> Z;
  pax_noexec_setup_flags : image_params -> N -> Z -> Z;
  pax_segvguard_setup_flags : image_params -> N -> Z -> Z;
  pax_hardening_setup_flags : image_params -> N -> Z -> Z
}.

Section Aggregator.

Variable K : kernel_config.
Variable H : pax_header.
Variable E : pax_engines.

Definition pax_log_internal_imgp (imgp : image_params) (level : Z)
    (fmt : string) (arg : option Z) : kern kstate unit :=
  emit (EvLogKernel level fmt arg).

Definition pax_ulog_internal (fmt : string) (arg : option Z)
    : kern kstate unit :=
  emit (EvLogUser fmt arg).

(** [flags |= hook(imgp, td, mode);] under its #ifdef. *)
Definition setup_flags (enabled : bool) (fn : string)
    (hook : image_params -> N -> Z -> Z)
    (imgp : image_params) (td : N) (mode flags : Z) : kern kstate Z :=
  if enabled then
    rc ← extern fn (fun s => (hook imgp td mode, s));
    mret (pax_flag_wrap H (Z.lor flags rc))
  else mret flags.

(** The body of [pax_elf] from [mode = pax_get_requested_flags(imgp)] to
    its end: what runs when the test on the prefer-ACL marker at the top of
    the function is compiled out or does not return. *)
Definition pax_elf_activation (td : N) (imgp : image_params)
    : kern kstate Z :=
  let mode := pax_get_requested_flags K H imgp in
  let flags := 0 in
  if negb (Z.eqb (pax_validate_flags H mode) 0) then
    pax_log_internal_imgp imgp (PAX_LOG_DEFAULT H)
      "unknown paxflags: %x" (Some mode) ;;
    pax_ulog_internal "unknown paxflags: %x\n" (Some mode) ;;
    mret ENOEXEC
  else if negb (Z.eqb (pax_check_conflicting_modes H mode) 0) then
    (* indicate flags inconsistencies in dmesg and in user terminal *)
    pax_log_internal_imgp imgp (PAX_LOG_DEFAULT H)
      "inconsistent paxflags: %x" (Some mode) ;;
    pax_ulog_internal "inconsistent paxflags: %x\n" (Some mode) ;;
    mret ENOEXEC
  else
    flags ← setup_flags (PAX_ASLR K) "pax_aslr_setup_flags"
              (pax_aslr_setup_flags E) imgp td mode flags;
    flags ← setup_flags (PAX_ASLR K && MAP_32BIT K)
              "pax_disallow_map32bit_setup_flags"
              (pax_disallow_map32bit_setup_flags E) imgp td mode flags;
    flags ← setup_flags (PAX_NOEXEC K) "pax_noexec_setup_flags"
              (pax_noexec_setup_flags E) imgp td mode flags;
    flags ← setup_flags (PAX_SEGVGUARD K) "pax_segvguard_setup_flags"
              (pax_segvguard_setup_flags E) imgp td mode flags;
    flags ← setup_flags (PAX_HARDENING K) "pax_hardening_setup_flags"
              (pax_hardening_setup_flags E) imgp td mode flags;
    emit (EvKtr "%s : flags = %x mode = %x") ;;
    (* Recheck the flags after the parsing: prevent broken setups. *)
    if negb (Z.eqb (pax_validate_flags H flags) 0) then
      pax_log_internal_imgp imgp (PAX_LOG_DEFAULT H)
        "unknown paxflags after the setup: %x" (Some flags) ;;
      pax_ulog_internal "unknown paxflags after the setup: %x\n"
        (Some flags) ;;
      mret ENOEXEC
    else if negb (Z.eqb (pax_check_conflicting_modes H flags) 0) then
      pax_log_internal_imgp imgp (PAX_LOG_DEFAULT H)
        "inconsistent paxflags after the setup: %x" (Some flags) ;;
      pax_ulog_internal "inconsistent paxflags after the setup: %x\n"
        (Some flags) ;;
      mret ENOEXEC
    else
      let flags :=
        if PAX_CONTROL_ACL K && PAX_CONTROL_ACL_OVERRIDE_SUPPORT K then
          if Z.eqb (Z.land mode (PAX_NOTE_PREFER_ACL H))
                   (PAX_NOTE_PREFER_ACL H)
          then pax_flag_wrap H (Z.lor flags (PAX_NOTE_PREFER_ACL H))
          else Z.land flags (pax_flag_not H (PAX_NOTE_PREFER_ACL H))
        else flags in
      pax_set_flags K (imgp_proc imgp) td flags ;;
      (* if we enable/disable features with secadm, print out a warning *)
      (if negb (Z.eqb mode 0) then
         pax_log_internal_imgp imgp (PAX_LOG_DEFAULT H)
           "the process started with non-default hardening settings" None
       else mret tt) ;;
      mret 0.

Definition pax_elf (td : N) (imgp : image_params) : kern kstate Z :=
  if PAX_CONTROL_ACL K && PAX_CONTROL_ACL_OVERRIDE_SUPPORT K then
    flags ← pax_get_flags_td K td;
    if Z.eqb (Z.land flags (PAX_NOTE_PREFER_ACL H)) (PAX_NOTE_PREFER_ACL H)
    then mret 0
    else pax_elf_activation td imgp
  else pax_elf_activation td imgp.

(** *** Vocabulary for the properties of [pax_elf] *)

(** The engine hooks compiled into the kernel, in the order [pax_elf]
    calls them. *)
Definition compiled_hooks : list (string * (image_params -> N -> Z -> Z)) :=
  (if PAX_ASLR K
   then [("pax_aslr_setup_flags", pax_aslr_setup_flags E)] else []) ++
  (if PAX_ASLR K && MAP_32BIT K
   then [("pax_disallow_map32bit_setup_flags",
          pax_disallow_map32bit_setup_flags E)] else []) ++
  (if PAX_NOEXEC K
   then [("pax_noexec_setup_flags", pax_noexec_setup_flags E)] else []) ++
  (if PAX_SEGVGUARD K
   then [("pax_segvguard_setup_flags", pax_segvguard_setup_flags E)]
   else []) ++
  (if PAX_HARDENING K
   then [("pax_hardening_setup_flags", pax_hardening_setup_flags E)]
   else []).

(** The aggregated result: the hooks' values OR-ed into a zero
    accumulator. *)
Definition aggregated_flags (imgp : image_params) (td : N) (mode : Z) : Z :=
  fold_left (fun flags h => pax_flag_wrap H (Z.lor flags (h.2 imgp td mode)))
            compiled_hooks 0.

Definition hook_calls (imgp : image_params) (td : N) (mode : Z)
    : list event :=
  map (fun h => EvCall h.1 (h.2 imgp td mode)) compiled_hooks.

(** ACL override support is compiled in. *)
Definition acl_override : bool :=
  PAX_CONTROL_ACL K && PAX_CONTROL_ACL_OVERRIDE_SUPPORT K.

(** A mask carries the prefer-ACL marker, as [pax_elf] tests it. *)
Definition prefers_acl (flags : Z) : bool :=
  Z.eqb (Z.land flags (PAX_NOTE_PREFER_ACL H)) (PAX_NOTE_PREFER_ACL H).

(** The activation gets past the prefer-ACL short-circuit: either the
    test is not compiled in, or it reads the thread's mask and finds no
    marker. *)
Definition not_short_circuited (td : N) (s : kstate) : Prop :=
  acl_override = true ->
  exists flags,
    pax_get_flags_td K td s = Done flags s [] /\ prefers_acl flags = false.

(** Some validator rejects the requested mode or the aggregated result. *)
Definition validation_fails (imgp : image_params) (td : N) : Prop :=
  let mode := pax_get_requested_flags K H imgp in
  let flags := aggregated_flags imgp td mode in
  pax_validate_flags H mode <> 0 \/
  pax_check_conflicting_modes H mode <> 0 \/
  pax_validate_flags H flags <> 0 \/
  pax_check_conflicting_modes H flags <> 0.

(** The mask [pax_elf] hands to [pax_set_flags]. *)
Definition committed_flags (imgp : image_params) (td : N) : Z :=
  let mode := pax_get_requested_flags K H imgp in
  let flags := aggregated_flags imgp td mode in
  if acl_override then
    if prefers_acl mode
    then pax_flag_wrap H (Z.lor flags (PAX_NOTE_PREFER_ACL H))
    else Z.land flags (pax_flag_not H (PAX_NOTE_PREFER_ACL H))
  else flags.

End Aggregator.

(** ** Jail policy initializer *)

(** The per-prison initializers of the mitigation engines.  [P] is the
    memory holding the prisons, [O] the type of [struct vfsoptlist]; an
    initializer returns its status and the updated memory. *)
Record prison_engines (P O : Type) : Type := {
  pax_aslr_init_prison : N -> O -> P -> Z * P;
  pax_hardening_init_prison : N -> O -> P -> Z * P;
  pax_noexec_init_prison : N -> O -> P -> Z * P;
  pax_segvguard_init_prison : N -> O -> P -> Z * P;
  pax_aslr_init_prison32 : N -> O -> P -> Z * P;
  pax_log_init_prison : N -> O -> P -> Z * P
}.
Arguments pax_aslr_init_prison {P O}.
Arguments pax_hardening_init_prison {P O}.
Arguments pax_noexec_init_prison {P O}.
Arguments pax_segvguard_init_prison {P O}.
Arguments pax_aslr_init_prison32 {P O}.
Arguments pax_log_init_prison {P O}.

Section Prison.

Variable K : kernel_config.
Variables P O : Type.
Variable PE : prison_engines P O.
(** [&prison0] *)
Variable prison0 : N.

Definition pax_init_prison (pr : N) (opts : O) : kern P bool :=
  emit (EvKtr "%s: Setting prison %s PaX variables\n") ;;
  ret ← (rc ← extern "pax_aslr_init_prison" (pax_aslr_init_prison PE pr opts);
         if negb (Z.eqb rc 0) then mret false else
         rc ← extern "pax_hardening_init_prison"
                (pax_hardening_init_prison PE pr opts);
         if negb (Z.eqb rc 0) then mret false else
         rc ← extern "pax_noexec_init_prison"
                (pax_noexec_init_prison PE pr opts);
         if negb (Z.eqb rc 0) then mret false else
         rc ← extern "pax_segvguard_init_prison"
                (pax_segvguard_init_prison PE pr opts);
         if negb (Z.eqb rc 0) then mret false else
         rc ← (if COMPAT_FREEBSD32 K
               then extern "pax_aslr_init_prison32"
                      (pax_aslr_init_prison32 PE pr opts)
               else mret 0);
         if negb (Z.eqb rc 0) then mret false else
         rc ← extern "pax_log_init_prison" (pax_log_init_prison PE pr opts);
         if negb (Z.eqb rc 0) then mret false else
         (* Every initialization finished w/o error. *)
         mret true);
  KASSERT K
    (mret ((N.eqb pr prison0 && Bool.eqb ret true) || negb (N.eqb pr prison0)))
    "Unexpected error during prison0 initialization." ;;
  mret ret.

(** *** Vocabulary for the properties of [pax_init_prison] *)

(** The names of the compiled-in initializers, in calling order. *)
Definition initializer_order : list string :=
  ["pax_aslr_init_prison"; "pax_hardening_init_prison";
   "pax_noexec_init_prison"; "pax_segvguard_init_prison"] ++
  (if COMPAT_FREEBSD32 K then ["pax_aslr_init_prison32"] else []) ++
  ["pax_log_init_prison"].

(** The initializer calls of a trace: name and status of each. *)
Definition calls_of (tr : list event) : list (string * Z) :=
  omap (fun e => match e with EvCall fn rc => Some (fn, rc) | _ => None end)
       tr.

(** Every call returned 0. *)
Definition all_succeeded (calls : list (string * Z)) : bool :=
  forallb (fun c => Z.eqb c.2 0) calls.

End Prison.

(** ** Feature states *)

Section FeatureState.

Variable K : kernel_config.
Variable H : pax_header.

(** The validators take [pax_state_t *state]; here they take the value
    stored there and return, next to their result, the value stored there
    afterwards. *)
Definition pax_feature_validate_state (state : Z) : bool * Z :=
  if Z.eqb state (PAX_FEATURE_DISABLED H)
     || Z.eqb state (PAX_FEATURE_OPTIN H)
     || Z.eqb state (PAX_FEATURE_OPTOUT H)
     || Z.eqb state (PAX_FEATURE_FORCE_ENABLED H)
  then (true, state)
  else (false, PAX_FEATURE_FORCE_ENABLED H).

Definition pax_feature_simple_validate_state (state : Z) : bool * Z :=
  if Z.eqb state (PAX_FEATURE_SIMPLE_DISABLED H)
     || Z.eqb state (PAX_FEATURE_SIMPLE_ENABLED H)
  then (true, state)
  else (false, PAX_FEATURE_SIMPLE_ENABLED H).

(** The legal members of the two enumerations. *)
Definition feature_states : list Z :=
  [PAX_FEATURE_DISABLED H; PAX_FEATURE_OPTIN H;
   PAX_FEATURE_OPTOUT H; PAX_FEATURE_FORCE_ENABLED H].

Definition simple_feature_states : list Z :=
  [PAX_FEATURE_SIMPLE_DISABLED H; PAX_FEATURE_SIMPLE_ENABLED H].

Variable O : Type.
(** vfs_copyopt(opts, name, &dest, sizeof(dest)) of kern/vfs_mount.c: the
    error it returns and, meaningful when the error is 0, the value it
    copied to [dest]. *)
Variable vfs_copyopt : O -> string -> Z * Z.

(** [status] is the value at [*status] on entry; the result pairs the
    return value with the value at [*status] on exit. *)
Definition pax_handle_prison_param (opts : O) (mib : string) (status : Z)
    : Z * Z :=
  if PAX_JAIL_SUPPORT K then
    let '(error, new_state) := vfs_copyopt opts mib in
    if Z.eqb error ENOENT then
      (* use system default *)
      (0, status)
    else if Z.eqb error 0 then
      let '(valid, new_state) := pax_feature_validate_state new_state in
      if valid then (0, new_state) else (0, status)
    else (error, status)
  else (0, status).

End FeatureState.

(** ** The standing invariant of the flag storage *)

(** Every thread on the queue of process [p] carries the mask of [p]: what
    the HBSD_DEBUG loop of [pax_get_flags] asserts. *)
Definition threads_agree (s : kstate) (p : N) : Prop :=
  exists pr,
    ks_procs s !! p = Some pr /\
    forall td0, In td0 (p_threads pr) ->
      exists t0, ks_threads s !! td0 = Some t0 /\ td_pax t0 = p_pax pr.

(** The pointers [pax_set_flags] follows are valid and its caller is the
    running thread [td] of process [p]: the contract its two KASSERTs
    spell out. *)
Definition commit_ready (s : kstate) (p td : N) : Prop :=
  ks_curthread s = td /\
  (exists t, ks_threads s !! td = Some t /\ td_proc t = p) /\
  exists pr,
    ks_procs s !! p = Some pr /\
    forall td0, In td0 (p_threads pr) -> is_Some (ks_threads s !! td0).

(** What the HBSD_DEBUG loop of [pax_get_flags_td] asserts about the
    process of thread [td]: every thread on its queue belongs to it and
    carries its mask. *)
Definition debug_checks_hold (s : kstate) (td : N) : Prop :=
  exists t pr,
    ks_threads s !! td = Some t /\
    ks_procs s !! td_proc t = Some pr /\
    forall td0, In td0 (p_threads pr) ->
      exists t0, ks_threads s !! td0 = Some t0 /\
                 td_proc t0 = td_proc t /\ td_pax t0 = p_pax pr.

(** Every thread on the queue of process [p] names [p] as its process:
    the first assertion of the HBSD_DEBUG loop of [pax_get_flags_td]. *)
Definition queue_belongs (s : kstate) (p : N) : Prop :=
  forall pr, ks_procs s !! p = Some pr ->
    forall td0, In td0 (p_threads pr) ->
      exists t0, ks_threads s !! td0 = Some t0 /\ td_proc t0 = p.

(** ** The status name tables *)

(** An array defined by designated initializers [[i] = v]: it extends to
    the largest index named, a later initializer for an index replaces an
    earlier one, and the elements not named are null.  (C accepts only
    indices that are not negative; the properties below assume as much of
    the enumerators.) *)
Definition designated (inits : list (Z * string)) : list (option string) :=
  fold_left
    (fun arr (d : Z * string) =>
       let n := Z.to_nat d.1 in
       <[n := Some d.2]> (arr ++ replicate (Datatypes.S n - length arr) None))
    inits [].

Definition pax_status_str (H : pax_header) : list (option string) :=
  designated
    [(PAX_FEATURE_DISABLED H, "disabled");
     (PAX_FEATURE_OPTIN H, "opt-in");
     (PAX_FEATURE_OPTOUT H, "opt-out");
     (PAX_FEATURE_FORCE_ENABLED H, "force enabled")].

Definition pax_status_simple_str (H : pax_header) : list (option string) :=
  designated
    [(PAX_FEATURE_SIMPLE_DISABLED H, "disabled");
     (PAX_FEATURE_SIMPLE_ENABLED H, "enabled")].

(** [table[state]]: the element, or nothing when [state] is outside the
    array. *)
Definition table_entry (table : list (option string)) (state : Z)
    : option (option string) :=
  if Z.ltb state 0 then None else table !! Z.to_nat state.

(** ** The jail policy initializer as an iteration *)

Section PrisonIteration.

Variable K : kernel_config.
Variables P O : Type.
Variable PE : prison_engines P O.

(** The compiled-in initializers with their names, in calling order. *)
Definition compiled_initializers
    : list (string * (N -> O -> P -> Z * P)) :=
  [("pax_aslr_init_prison", pax_aslr_init_prison PE);
   ("pax_hardening_init_prison", pax_hardening_init_prison PE);
   ("pax_noexec_init_prison", pax_noexec_init_prison PE);
   ("pax_segvguard_init_prison", pax_segvguard_init_prison PE)] ++
  (if COMPAT_FREEBSD32 K
   then [("pax_aslr_init_prison32", pax_aslr_init_prison32 PE)] else []) ++
  [("pax_log_init_prison", pax_log_init_prison PE)].

(** Run the initializers of [l] one after the other on the prison memory,
    stopping at the first that fails: whether all succeeded, the memory
    left behind, and the calls made. *)
Fixpoint run_initializers (l : list (string * (N -> O -> P -> Z * P)))
    (pr : N) (opts : O) (s : P) : bool * P * list event :=
  match l with
  | [] => (true, s, [])
  | (fn, init) :: l' =>
      let '(rc, s1) := init pr opts s in
      if negb (Z.eqb rc 0) then (false, s1, [EvCall fn rc])
      else
        let '(ok, s2, tr) := run_initializers l' pr opts s1 in
        (ok, s2, EvCall fn rc :: tr)
  end.

End PrisonIteration.

(** ** A concrete kernel to run the model on *)

(** A header with the usual layout: six enable bits at even positions,
    each with its disable bit one position above, and the prefer-ACL
    marker in the top bit of a 32-bit mask. *)
Definition sample_header : pax_header := {|
  pax_flag_bits := 32;
  PAX_NOTE_ALL := 0x80000fff;
  PAX_NOTE_ALL_ENABLED := 0x555;
  PAX_NOTE_ALL_DISABLED := 0xaaa;
  PAX_NOTE_PREFER_ACL := 0x80000000;
  PAX_LOG_DEFAULT := 0;
  PAX_FEATURE_DISABLED := 0;
  PAX_FEATURE_OPTIN := 1;
  PAX_FEATURE_OPTOUT := 2;
  PAX_FEATURE_FORCE_ENABLED := 3;
  PAX_FEATURE_SIMPLE_DISABLED := 0;
  PAX_FEATURE_SIMPLE_ENABLED := 1
|}.

(** Everything compiled in; [override] selects
    PAX_CONTROL_ACL_OVERRIDE_SUPPORT. *)
Definition sample_config (override : bool) : kernel_config := {|
  INVARIANTS := true;
  HBSD_DEBUG := true;
  PAX_CONTROL_ACL := true;
  PAX_CONTROL_ACL_OVERRIDE_SUPPORT := override;
  PAX_CONTROL_EXTATTR := true;
  PAX_ASLR := true;
  MAP_32BIT := true;
  PAX_NOEXEC := true;
  PAX_SEGVGUARD := true;
  PAX_HARDENING := true;
  COMPAT_FREEBSD32 := true;
  PAX_JAIL_SUPPORT := true
|}.

(** An opt-out engine: its feature is on unless the mode asks for it to
    be off. *)
Definition opt_out_engine (enable disable : Z)
    (imgp : image_params) (td : N) (mode : Z) : Z :=
  if Z.eqb (Z.land mode disable) 0 then enable else disable.

Definition sample_engines : pax_engines := {|
  pax_aslr_setup_flags := opt_out_engine 0x40 0x80;
  pax_disallow_map32bit_setup_flags := opt_out_engine 0x400 0x800;
  pax_noexec_setup_flags := fun imgp td mode =>
    Z.lor (opt_out_engine 0x1 0x2 imgp td mode)
          (opt_out_engine 0x4 0x8 imgp td mode);
  pax_segvguard_setup_flags := opt_out_engine 0x10 0x20;
  pax_hardening_setup_flags := opt_out_engine 0x100 0x200
|}.

(** Process 1 with threads 10 and 11, all carrying [pax]; thread 10 is
    running. *)
Definition sample_state (pax : Z) : kstate := {|
  ks_procs := {[ 1%N := {| p_pax := pax; p_threads := [10%N; 11%N] |} ]};
  ks_threads := {[ 10%N := {| td_proc := 1%N; td_pax := pax |};
                   11%N := {| td_proc := 1%N; td_pax := pax |} ]};
  ks_curthread := 10%N
|}.

Definition sample_image (acl extattr : Z) : image_params := {|
  imgp_proc := 1%N;
  req_acl_flags := acl;
  req_extattr_flags := extattr
|}.

(** Jail parameters as an association list, and a lookup in the manner of
    vfs_copyopt: ENOENT when the name is absent. *)
Definition sample_copyopt (opts : list (string * Z)) (name : string)
    : Z * Z :=
  match list_find (fun o => String.eqb o.1 name) opts with
  | Some (_, (_, v)) => (0, v)
  | None => (ENOENT, 0)
  end.

(** Prison memory: one feature state per (prison, parameter).  An
    initializer reads its parameter and refuses, with EINVAL, a value that
    is not a feature state. *)
Definition sample_init (name : string) (pr : N) (opts : list (string * Z))
    (m : gmap (N * string) Z) : Z * gmap (N * string) Z :=
  match sample_copyopt opts name with
  | (0, v) =>
      if fst (pax_feature_validate_state sample_header v)
      then (0, <[(pr, name) := v]> m)
      else (22, m)
  | _ => (0, m)
  end.

Definition sample_prison_engines
    : prison_engines (gmap (N * string) Z) (list (string * Z)) := {|
  pax_aslr_init_prison := sample_init "hardening.pax.aslr.status";
  pax_hardening_init_prison :=
    sample_init "hardening.pax.procfs_harden.status";
  pax_noexec_init_prison := sample_init "hardening.pax.pageexec.status";
  pax_segvguard_init_prison := sample_init "hardening.pax.segvguard.status";
  pax_aslr_init_prison32 := sample_init "hardening.pax.aslr.compat.status";
  pax_log_init_prison := sample_init "hardening.pax.log.log"
|}.

(** The trace of activating, on [sample_state 0], an image whose ACL
    request pins the policy and turns ASLR off. *)
Definition sample_pinned_trace : list event :=
  [EvCall "pax_aslr_setup_flags" 0x80;
     EvCall "pax_disallow_map32bit_setup_flags" 0x400;
     EvCall "pax_noexec_setup_flags" 0x5;
     EvCall "pax_segvguard_setup_flags" 0x10;
     EvCall "pax_hardening_setup_flags" 0x100;
     EvKtr "%s : flags = %x mode = %x";
     EvProcLock 1; EvProcUnlock 1;
     EvLogKernel 0
       "the process started with non-default hardening settings" None].

(** * Properties *)

(** ** Bits of pax_flag_t values *)

Section FlagBits.

Variable H : pax_header.

Lemma flag_testbit_high m i :
  0 <= m < 2 ^ pax_flag_bits H -> pax_flag_bits H <= i ->
  Z.testbit m i = false.
Proof.
  intros Hm Hi.
  destruct (Z.ltb_spec (pax_flag_bits H) 0) as [Hneg | Hpos].
  - rewrite Z.pow_neg_r in Hm by assumption. lia.
  - rewrite <- (Z.mod_small m (2 ^ pax_flag_bits H)) by assumption.
    apply Z.mod_pow2_bits_high. lia.
Qed.

(** On a value of the type, [x & ~a] keeps the bits of [x] that [a]
    lacks. *)
Lemma land_flag_not m a :
  0 <= m < 2 ^ pax_flag_bits H ->
  Z.land m (pax_flag_not H a) = Z.ldiff m a.
Proof.
  intros Hm. apply Z.bits_inj'. intros i Hi.
  rewrite Z.land_spec, Z.ldiff_spec.
  unfold pax_flag_not, pax_flag_wrap.
  destruct (Z.ltb_spec i (pax_flag_bits H)) as [Hlt | Hge].
  - rewrite Z.mod_pow2_bits_low by assumption.
    rewrite Z.lnot_spec by assumption. reflexivity.
  - rewrite (flag_testbit_high m i) by assumption. reflexivity.
Qed.

Lemma nonneg_nonzero_bit a :
  0 <= a -> (a <> 0 <-> exists i, 0 <= i /\ Z.testbit a i = true).
Proof.
  intros Ha. split.
  - intros Hnz. exists (Z.log2 a). split.
    + apply Z.log2_nonneg.
    + apply Z.bit_log2. lia.
  - intros (i & Hi & Hbit) ->. rewrite Z.bits_0 in Hbit. discriminate.
Qed.

Lemma pax_validate_flags_cases m :
  pax_validate_flags H m = 0 \/ pax_validate_flags H m = 1.
Proof. unfold pax_validate_flags. destruct (negb _); auto. Qed.

Lemma pax_check_conflicting_modes_cases m :
  pax_check_conflicting_modes H m = 0 \/ pax_check_conflicting_modes H m = 1.
Proof. unfold pax_check_conflicting_modes. destruct (negb _); auto. Qed.

(** C3: for every mask [m] of the type, [pax_validate_flags] reports a
    failure (returns 1) if and only if [(m & ~PAX_NOTE_ALL) != 0], which
    is the case if and only if some bit of [m] is set outside
    PAX_NOTE_ALL; for all other masks it reports success (returns 0). *)
Theorem pax_validate_flags_unknown_bits m :
  0 <= m < 2 ^ pax_flag_bits H ->
  (pax_validate_flags H m = 1 <->
     Z.land m (pax_flag_not H (PAX_NOTE_ALL H)) <> 0) /\
  (pax_validate_flags H m = 1 <->
     exists i, 0 <= i /\ Z.testbit m i = true /\
               Z.testbit (PAX_NOTE_ALL H) i = false) /\
  (pax_validate_flags H m <> 1 -> pax_validate_flags H m = 0).
Proof.
  intros Hm.
  assert (Hcode : pax_validate_flags H m = 1 <->
                  Z.land m (pax_flag_not H (PAX_NOTE_ALL H)) <> 0).
  { unfold pax_validate_flags.
    destruct (Z.eqb_spec (Z.land m (pax_flag_not H (PAX_NOTE_ALL H))) 0)
      as [-> | Hne]; simpl; split; intros; try congruence; lia. }
  split; [exact Hcode |]. split.
  - rewrite Hcode, land_flag_not by assumption.
    rewrite nonneg_nonzero_bit by (apply Z.ldiff_nonneg; lia).
    split; intros (i & Hi & Hbit); exists i.
    + rewrite Z.ldiff_spec in Hbit.
      apply andb_true_iff in Hbit as [Hb1 Hb2].
      apply negb_true_iff in Hb2. auto.
    + destruct Hbit as [Hb1 Hb2].
      rewrite Z.ldiff_spec, Hb1, Hb2. auto.
  - destruct (pax_validate_flags_cases m); congruence.
Qed.

(** C4: for every mask [m] of the type, [pax_check_conflicting_modes]
    reports a conflict (returns 1) if and only if
    [((m & PAX_NOTE_ALL_ENABLED) & ((m & PAX_NOTE_ALL_DISABLED) >> 1)) != 0],
    which is the case if and only if for some enable bit [i] whose disable
    bit sits at [i + 1] both bits are set in [m]; for all other masks it
    reports no conflict (returns 0). *)
Theorem pax_check_conflicting_modes_pairs m :
  0 <= m < 2 ^ pax_flag_bits H ->
  (pax_check_conflicting_modes H m = 1 <->
     Z.land (Z.land m (PAX_NOTE_ALL_ENABLED H))
            (Z.shiftr (Z.land m (PAX_NOTE_ALL_DISABLED H)) 1) <> 0) /\
  (pax_check_conflicting_modes H m = 1 <->
     exists i, 0 <= i /\
       Z.testbit (PAX_NOTE_ALL_ENABLED H) i = true /\
       Z.testbit (PAX_NOTE_ALL_DISABLED H) (i + 1) = true /\
       Z.testbit m i = true /\ Z.testbit m (i + 1) = true) /\
  (pax_check_conflicting_modes H m <> 1 ->
     pax_check_conflicting_modes H m = 0).
Proof.
  intros Hm.
  set (x := Z.land (Z.land m (PAX_NOTE_ALL_ENABLED H))
                   (Z.shiftr (Z.land m (PAX_NOTE_ALL_DISABLED H)) 1)).
  assert (Hcode : pax_check_conflicting_modes H m = 1 <-> x <> 0).
  { unfold pax_check_conflicting_modes. fold x.
    destruct (Z.eqb_spec x 0) as [-> | Hne]; simpl; split; intros;
      try congruence; lia. }
  split; [exact Hcode |]. split.
  - rewrite Hcode.
    rewrite nonneg_nonzero_bit
      by (apply Z.land_nonneg; left; apply Z.land_nonneg; lia).
    split; intros (i & Hi & Hbit); exists i.
    + unfold x in Hbit.
      rewrite !Z.land_spec, Z.shiftr_spec, Z.land_spec in Hbit by assumption.
      rewrite !andb_true_iff in Hbit.
      destruct Hbit as [[Hmi He] [Hmd Hd]]. auto 6.
    + destruct Hbit as (He & Hd & Hmi & Hmd).
      unfold x.
      rewrite !Z.land_spec, Z.shiftr_spec, Z.land_spec by assumption.
      rewrite He, Hd, Hmi, Hmd. auto.
  - destruct (pax_check_conflicting_modes_cases m); congruence.
Qed.

End FlagBits.

(** ** Running kernel code *)

Section Run.

Context {S : Type}.

Lemma run_bind {A B} (m : kern S A) (f : A -> kern S B) s :
  (m ≫= f) s =
  match m s with
  | Done a s1 tr1 =>
      match f a s1 with
      | Done b s2 tr2 => Done b s2 (tr1 ++ tr2)
      | Panic msg tr2 => Panic msg (tr1 ++ tr2)
      end
  | Panic msg tr1 => Panic msg tr1
  end.
Proof. reflexivity. Qed.

Lemma run_bind_done {A B} (m : kern S A) (f : A -> kern S B) s a :
  m s = Done a s [] -> (m ≫= f) s = f a s.
Proof.
  intros Hm. rewrite run_bind, Hm. destruct (f a s); reflexivity.
Qed.

Lemma bind_done_inv {A B} (m : kern S A) (f : A -> kern S B) s b s2 tr :
  (m ≫= f) s = Done b s2 tr ->
  exists a s1 tr1 tr2,
    m s = Done a s1 tr1 /\ f a s1 = Done b s2 tr2 /\ tr = tr1 ++ tr2.
Proof.
  rewrite run_bind. intros Hrun.
  destruct (m s) as [a s1 tr1 | msg tr1]; [| discriminate].
  destruct (f a s1) as [b' s2' tr2 | msg tr2] eqn:Hf; [| discriminate].
  injection Hrun as -> -> <-. exists a, s1, tr1, tr2. auto.
Qed.

(** A KASSERT whose condition holds, or that is compiled out, is a
    no-op. *)
Lemma run_KASSERT_pass K (cond : kern S bool) msg s :
  cond s = Done true s [] -> KASSERT K cond msg s = Done tt s [].
Proof.
  intros Hc. unfold KASSERT. destruct (INVARIANTS K); [| reflexivity].
  rewrite run_bind, Hc. reflexivity.
Qed.

End Run.

(** ** Code that only reads *)

Section ReadOnly.

Context {S : Type}.

Lemma read_only_ret {A} (a : A) : read_only (mret a : kern S A).
Proof. intros s. split; reflexivity. Qed.

Lemma read_only_gets {A} (f : S -> A) : read_only (gets f).
Proof. intros s. split; reflexivity. Qed.

Lemma read_only_panic {A} msg : read_only (panic msg : kern S A).
Proof. intros s. reflexivity. Qed.

Lemma read_only_bind {A B} (m : kern S A) (f : A -> kern S B) :
  read_only m -> (forall a, read_only (f a)) -> read_only (m ≫= f).
Proof.
  intros Hm Hf s. rewrite run_bind.
  specialize (Hm s). destruct (m s) as [a s1 tr1 | msg tr1]; [| assumption].
  destruct Hm as [-> ->]. specialize (Hf a s).
  destruct (f a s) as [b s2 tr2 | msg tr2]; simpl; assumption.
Qed.

Lemma read_only_KASSERT K (cond : kern S bool) msg :
  read_only cond -> read_only (KASSERT K cond msg).
Proof.
  intros Hc. unfold KASSERT. destruct (INVARIANTS K).
  - apply read_only_bind; [assumption |].
    intros []; [apply read_only_ret | apply read_only_panic].
  - apply read_only_ret.
Qed.

Lemma read_only_foreach {A} (l : list A) (body : A -> kern S unit) :
  (forall x, read_only (body x)) -> read_only (foreach l body).
Proof.
  intros Hb. induction l as [| x l IH]; simpl.
  - apply read_only_ret.
  - apply read_only_bind; [apply Hb | intros _; exact IH].
Qed.

Lemma read_only_done {A} (m : kern S A) s a s1 tr :
  read_only m -> m s = Done a s1 tr -> s1 = s /\ tr = [].
Proof. intros Hm Hrun. specialize (Hm s). rewrite Hrun in Hm. exact Hm. Qed.

End ReadOnly.

(** ** Flag storage *)

Section Storage.

Variable K : kernel_config.

Lemma read_only_thread_at td : read_only (thread_at td).
Proof.
  intros s. unfold thread_at. destruct (ks_threads s !! td); auto.
Qed.

Lemma read_only_proc_at p : read_only (proc_at p).
Proof.
  intros s. unfold proc_at. destruct (ks_procs s !! p); auto.
Qed.

Ltac read_only_tac :=
  repeat first
    [ apply read_only_thread_at | apply read_only_proc_at
    | apply read_only_ret | apply read_only_gets | apply read_only_panic
    | apply read_only_KASSERT | apply read_only_foreach
    | apply read_only_bind | intro ].

Lemma read_only_pax_get_flags_td td : read_only (pax_get_flags_td K td).
Proof.
  unfold pax_get_flags_td. destruct (HBSD_DEBUG K); read_only_tac.
Qed.


Lemma run_thread_at td s t :
  ks_threads s !! td = Some t -> thread_at td s = Done t s [].
Proof. intros Ht. unfold thread_at. rewrite Ht. reflexivity. Qed.

Lemma run_proc_at p s pr :
  ks_procs s !! p = Some pr -> proc_at p s = Done pr s [].
Proof. intros Hp. unfold proc_at. rewrite Hp. reflexivity. Qed.

(** What [pax_get_flags_td] returns, when it returns, is the [td_pax] of
    the thread it was given. *)
Lemma pax_get_flags_td_done td s flags s1 tr :
  pax_get_flags_td K td s = Done flags s1 tr ->
  s1 = s /\ tr = [] /\
  exists t, ks_threads s !! td = Some t /\ td_pax t = flags.
Proof.
  intros Hrun.
  destruct (read_only_done _ _ _ _ _ (read_only_pax_get_flags_td td) Hrun)
    as [-> ->].
  split; [reflexivity |]. split; [reflexivity |].
  unfold pax_get_flags_td in Hrun.
  apply bind_done_inv in Hrun as ([] & s1 & tr1 & tr2 & Hk1 & Hrun & _).
  apply bind_done_inv in Hrun as ([] & s2 & tr3 & tr4 & Hk2 & Hrun & _).
  apply bind_done_inv in Hrun as (t & s3 & tr5 & tr6 & Ht & Hrun & _).
  assert (Hs1 : s1 = s).
  { eapply read_only_done; [| exact Hk1]. read_only_tac. }
  assert (Hs2 : s2 = s1).
  { eapply read_only_done; [| exact Hk2].
    destruct (HBSD_DEBUG K); read_only_tac. }
  subst s2 s1.
  unfold thread_at in Ht.
  destruct (ks_threads s !! td) as [t' |] eqn:Hlook; [| discriminate].
  exists t'. split; [reflexivity |].
  inversion Ht; subst. cbv [mret kern_ret] in Hrun.
  inversion Hrun; subst. reflexivity.
Qed.

End Storage.

Section Commit.

Variable K : kernel_config.

Lemma run_pax_set_flags_td td flags s t :
  ks_threads s !! td = Some t ->
  pax_set_flags_td td flags s =
  Done tt (store_thread td {| td_proc := td_proc t; td_pax := flags |} s) [].
Proof.
  intros Ht. unfold pax_set_flags_td.
  rewrite (run_bind_done _ _ _ t) by (apply run_thread_at; exact Ht).
  reflexivity.
Qed.

(** The loop of [pax_set_flags]: every thread on the queue gets the new
    mask and keeps its process; nothing else changes. *)
Lemma run_set_all_threads flags l :
  forall s,
    (forall td0, In td0 l -> is_Some (ks_threads s !! td0)) ->
    exists s',
      foreach l (fun td0 => pax_set_flags_td td0 flags) s = Done tt s' [] /\
      ks_procs s' = ks_procs s /\
      ks_curthread s' = ks_curthread s /\
      (forall td0, In td0 l ->
         exists t0, ks_threads s !! td0 = Some t0 /\
           ks_threads s' !! td0 =
           Some {| td_proc := td_proc t0; td_pax := flags |}) /\
      (forall td0, ~ In td0 l -> ks_threads s' !! td0 = ks_threads s !! td0).
Proof.
  induction l as [| x l IH]; intros s Hall.
  - exists s. simpl. repeat split; auto. intros td0 [].
  - destruct (Hall x (or_introl eq_refl)) as [t Ht].
    set (s1 := store_thread x {| td_proc := td_proc t; td_pax := flags |} s).
    assert (Hall1 : forall td0, In td0 l -> is_Some (ks_threads s1 !! td0)).
    { intros td0 Hin. unfold s1, store_thread. simpl.
      rewrite lookup_insert_is_Some. destruct (decide (x = td0)); auto.
      right. split; [assumption |]. apply Hall. right. assumption. }
    destruct (IH s1 Hall1) as (s' & Hrun & Hprocs & Hcur & Hin & Hout).
    exists s'. split; [| split; [| split; [| split]]].
    + simpl. rewrite run_bind, (run_pax_set_flags_td _ _ _ _ Ht).
      fold s1. rewrite Hrun. reflexivity.
    + rewrite Hprocs. reflexivity.
    + rewrite Hcur. reflexivity.
    + intros td0 Hmem.
      destruct (In_dec N.eq_dec td0 l) as [Hl | Hnl].
      * destruct (Hin td0 Hl) as (t1 & Ht1 & Hs').
        unfold s1, store_thread in Ht1. simpl in Ht1.
        destruct (decide (x = td0)) as [-> | Hne].
        -- rewrite lookup_insert_eq in Ht1. inversion Ht1; subst t1.
           exists t. split; [assumption |]. rewrite Hs'. reflexivity.
        -- rewrite lookup_insert_ne in Ht1 by assumption.
           exists t1. split; assumption.
      * destruct Hmem as [-> | Hl]; [| contradiction].
        exists t. split; [assumption |].
        rewrite (Hout td0 Hnl). unfold s1, store_thread. simpl.
        apply lookup_insert_eq.
    + intros td0 Hnot.
      rewrite Hout by (intros Hl; apply Hnot; right; assumption).
      unfold s1, store_thread. simpl.
      apply lookup_insert_ne. intros ->. apply Hnot. left. reflexivity.
Qed.

(** The HBSD_DEBUG loop of [pax_get_flags] passes on a process whose
    threads agree with it. *)
Lemma run_debug_loop p s pr l :
  ks_procs s !! p = Some pr ->
  (forall td0, In td0 l ->
     exists t0, ks_threads s !! td0 = Some t0 /\ td_pax t0 = p_pax pr) ->
  foreach l (fun td =>
    KASSERT K (t ← thread_at td;
               pr' ← proc_at p;
               mret (Z.eqb (td_pax t) (p_pax pr')))
            "%s: td->td_pax != p->p_pax") s = Done tt s [].
Proof.
  intros Hp. induction l as [| x l IH]; intros Hall; [reflexivity |].
  simpl. destruct (Hall x (or_introl eq_refl)) as (t0 & Ht0 & Hpax).
  rewrite (run_bind_done _ _ _ tt).
  - apply IH. intros td0 Hin. apply Hall. right. assumption.
  - apply run_KASSERT_pass.
    rewrite (run_bind_done _ _ _ t0) by (apply run_thread_at; exact Ht0).
    rewrite (run_bind_done _ _ _ pr) by (apply run_proc_at; exact Hp).
    rewrite Hpax, Z.eqb_refl. reflexivity.
Qed.

(** On a process whose threads agree with it, [pax_get_flags] called by
    one of its threads passes every assertion and returns the process'
    mask. *)
Lemma run_pax_get_flags p s t :
  ks_threads s !! ks_curthread s = Some t -> td_proc t = p ->
  threads_agree s p ->
  exists pr, ks_procs s !! p = Some pr /\
             pax_get_flags K p s = Done (p_pax pr) s [].
Proof.
  intros Hcur Hproc (pr & Hp & Hagree). exists pr. split; [assumption |].
  unfold pax_get_flags.
  rewrite (run_bind_done _ _ _ tt).
  2:{ apply run_KASSERT_pass.
      rewrite (run_bind_done _ _ _ (ks_curthread s)) by reflexivity.
      rewrite (run_bind_done _ _ _ t) by (apply run_thread_at; exact Hcur).
      rewrite Hproc, N.eqb_refl. reflexivity. }
  rewrite (run_bind_done _ _ _ tt).
  2:{ destruct (HBSD_DEBUG K); [| reflexivity].
      rewrite (run_bind_done _ _ _ pr) by (apply run_proc_at; exact Hp).
      apply run_debug_loop with (pr := pr); assumption. }
  rewrite (run_bind_done _ _ _ pr) by (apply run_proc_at; exact Hp).
  reflexivity.
Qed.

(** The run of [pax_set_flags] under its contract. *)
Lemma run_pax_set_flags s p td flags pr :
  commit_ready s p td ->
  ks_procs s !! p = Some pr ->
  exists s',
    pax_set_flags K p td flags s = Done tt s' [EvProcLock p; EvProcUnlock p] /\
    ks_procs s' =
      <[p := {| p_pax := flags; p_threads := p_threads pr |}]> (ks_procs s) /\
    ks_curthread s' = ks_curthread s /\
    (forall td0, In td0 (p_threads pr) ->
       exists t0, ks_threads s !! td0 = Some t0 /\
         ks_threads s' !! td0 =
         Some {| td_proc := td_proc t0; td_pax := flags |}) /\
    (forall td0, ~ In td0 (p_threads pr) ->
       ks_threads s' !! td0 = ks_threads s !! td0).
Proof.
  intros (Hcur & (t & Ht & Hproc) & pr0 & Hp0 & Hall) Hp.
  rewrite Hp in Hp0. inversion Hp0; subst pr0. clear Hp0.
  set (s1 := store_proc p {| p_pax := flags; p_threads := p_threads pr |} s).
  destruct (run_set_all_threads flags (p_threads pr) s1 Hall)
    as (s' & Hloop & Hprocs & Hcur' & Hin & Hout).
  exists s'. split; [| split; [| split; [| split]]];
    [| exact Hprocs | exact Hcur' | exact Hin | exact Hout].
  assert (Hp' : ks_procs s' !! p =
                Some {| p_pax := flags; p_threads := p_threads pr |}).
  { rewrite Hprocs. unfold s1, store_proc. simpl. apply lookup_insert_eq. }
  unfold pax_set_flags.
  rewrite (run_bind_done _ _ _ tt).
  2:{ apply run_KASSERT_pass.
      rewrite (run_bind_done _ _ _ (ks_curthread s)) by reflexivity.
      rewrite Hcur, N.eqb_refl. reflexivity. }
  rewrite (run_bind_done _ _ _ tt).
  2:{ apply run_KASSERT_pass.
      rewrite (run_bind_done _ _ _ t) by (apply run_thread_at; exact Ht).
      rewrite Hproc, N.eqb_refl. reflexivity. }
  unfold PROC_LOCK, PROC_UNLOCK.
  rewrite run_bind.
  rewrite (run_bind_done _ _ _ pr) by (apply run_proc_at; exact Hp).
  unfold emit at 1.
  rewrite (run_bind_done _ _ _ pr) by (apply run_proc_at; exact Hp).
  rewrite run_bind. unfold modify at 1. fold s1.
  rewrite run_bind, Hloop.
  rewrite (run_bind_done _ _ _ {| p_pax := flags; p_threads := p_threads pr |})
    by (apply run_proc_at; exact Hp').
  reflexivity.
Qed.

(** What a commit leaves behind: the process and the threads on its queue
    carry [flags], and the calling thread still belongs to the process. *)
Lemma pax_set_flags_post s p td flags pr s' :
  commit_ready s p td ->
  ks_procs s !! p = Some pr ->
  ks_procs s' =
    <[p := {| p_pax := flags; p_threads := p_threads pr |}]> (ks_procs s) ->
  ks_curthread s' = ks_curthread s ->
  (forall td0, In td0 (p_threads pr) ->
     exists t0, ks_threads s !! td0 = Some t0 /\
       ks_threads s' !! td0 =
       Some {| td_proc := td_proc t0; td_pax := flags |}) ->
  (forall td0, ~ In td0 (p_threads pr) ->
     ks_threads s' !! td0 = ks_threads s !! td0) ->
  threads_agree s' p /\
  exists t', ks_threads s' !! ks_curthread s' = Some t' /\ td_proc t' = p.
Proof.
  intros (Hcur & (t & Ht & Hproc) & _) Hp Hprocs Hcur' Hin Hout. split.
  - exists {| p_pax := flags; p_threads := p_threads pr |}. split.
    + rewrite Hprocs. apply lookup_insert_eq.
    + simpl. intros td0 Hmem. destruct (Hin td0 Hmem) as (t0 & _ & Hs').
      eexists. split; [exact Hs' | reflexivity].
  - rewrite Hcur', Hcur.
    destruct (In_dec N.eq_dec td (p_threads pr)) as [Hmem | Hnot].
    + destruct (Hin td Hmem) as (t0 & Ht0 & Hs').
      rewrite Ht in Ht0. inversion Ht0; subst t0.
      eexists. split; [exact Hs' | exact Hproc].
    + exists t. split; [| exact Hproc]. rewrite (Hout td Hnot). exact Ht.
Qed.

(** C5: after every call [pax_set_flags(p, td, flags)] made under the
    function's contract, the process mask [p->p_pax] equals [flags] and the
    [td_pax] of every thread on the queue of [p] equals [flags]; so the
    invariant that all threads of a process carry the process' mask holds
    again, and the debug-build check of [pax_get_flags] passes. *)
Theorem pax_set_flags_commits s p td flags :
  commit_ready s p td ->
  exists s' pr',
    pax_set_flags K p td flags s = Done tt s' [EvProcLock p; EvProcUnlock p] /\
    ks_procs s' !! p = Some pr' /\
    p_pax pr' = flags /\
    (forall pr, ks_procs s !! p = Some pr -> p_threads pr' = p_threads pr) /\
    (forall td0, In td0 (p_threads pr') ->
       exists t0, ks_threads s' !! td0 = Some t0 /\ td_pax t0 = flags) /\
    threads_agree s' p /\
    pax_get_flags K p s' = Done flags s' [].
Proof.
  intros Hready.
  destruct Hready as (Hcur & Htd & pr & Hp & Hall).
  assert (Hready : commit_ready s p td) by (split; [| split]; eauto).
  destruct (run_pax_set_flags s p td flags pr Hready Hp)
    as (s' & Hrun & Hprocs & Hcur' & Hin & Hout).
  destruct (pax_set_flags_post s p td flags pr s' Hready Hp Hprocs Hcur'
              Hin Hout) as (Hagree & t' & Ht' & Hproc').
  assert (Hp' : ks_procs s' !! p =
                Some {| p_pax := flags; p_threads := p_threads pr |}).
  { rewrite Hprocs. apply lookup_insert_eq. }
  exists s', {| p_pax := flags; p_threads := p_threads pr |}.
  split; [exact Hrun |]. split; [exact Hp' |]. split; [reflexivity |].
  split; [| split; [| split; [exact Hagree |]]].
  - intros pr0 Hp0. rewrite Hp in Hp0. inversion Hp0. reflexivity.
  - simpl. intros td0 Hmem. destruct (Hin td0 Hmem) as (t0 & _ & Hs').
    eexists. split; [exact Hs' | reflexivity].
  - destruct (run_pax_get_flags p s' t' Ht' Hproc' Hagree)
      as (pr1 & Hp1 & Hget).
    rewrite Hp' in Hp1. inversion Hp1; subst pr1. exact Hget.
Qed.

(** The HBSD_DEBUG loop of [pax_get_flags_td] passes when its two
    assertions hold of every thread on the queue. *)
Lemma run_debug_loop_td p s pr l :
  ks_procs s !! p = Some pr ->
  (forall td0, In td0 l ->
     exists t0, ks_threads s !! td0 = Some t0 /\
                td_proc t0 = p /\ td_pax t0 = p_pax pr) ->
  foreach l (fun td0 =>
    KASSERT K (t0 ← thread_at td0; mret (N.eqb (td_proc t0) p))
            "%s: td0->td_proc != p" ;;
    KASSERT K (t0 ← thread_at td0;
               pr' ← proc_at p;
               mret (Z.eqb (td_pax t0) (p_pax pr')))
            "%s: td0->td_pax != p->p_pax") s = Done tt s [].
Proof.
  intros Hp. induction l as [| x l IH]; intros Hall; [reflexivity |].
  simpl. destruct (Hall x (or_introl eq_refl)) as (t0 & Ht0 & Hproc & Hpax).
  rewrite (run_bind_done _ _ _ tt).
  - apply IH. intros td0 Hin. apply Hall. right. assumption.
  - rewrite (run_bind_done _ _ _ tt).
    + apply run_KASSERT_pass.
      rewrite (run_bind_done _ _ _ t0) by (apply run_thread_at; exact Ht0).
      rewrite (run_bind_done _ _ _ pr) by (apply run_proc_at; exact Hp).
      rewrite Hpax, Z.eqb_refl. reflexivity.
    + apply run_KASSERT_pass.
      rewrite (run_bind_done _ _ _ t0) by (apply run_thread_at; exact Ht0).
      rewrite Hproc, N.eqb_refl. reflexivity.
Qed.

(** Called by the running thread on a state that meets the debug
    assertions, [pax_get_flags_td] returns the thread's mask. *)
Lemma run_pax_get_flags_td td s t :
  ks_curthread s = td ->
  ks_threads s !! td = Some t ->
  (HBSD_DEBUG K = true -> debug_checks_hold s td) ->
  pax_get_flags_td K td s = Done (td_pax t) s [].
Proof.
  intros Hcur Ht Hdebug. unfold pax_get_flags_td.
  rewrite (run_bind_done _ _ _ tt).
  2:{ apply run_KASSERT_pass.
      rewrite (run_bind_done _ _ _ (ks_curthread s)) by reflexivity.
      rewrite Hcur, N.eqb_refl. reflexivity. }
  rewrite (run_bind_done _ _ _ tt).
  2:{ destruct (HBSD_DEBUG K); [| reflexivity].
      destruct (Hdebug eq_refl) as (t' & pr & Ht' & Hp & Hall).
      rewrite Ht in Ht'. inversion Ht'; subst t'.
      rewrite (run_bind_done _ _ _ t) by (apply run_thread_at; exact Ht).
      rewrite (run_bind_done _ _ _ pr) by (apply run_proc_at; exact Hp).
      apply run_debug_loop_td with (pr := pr); assumption. }
  rewrite (run_bind_done _ _ _ t) by (apply run_thread_at; exact Ht).
  reflexivity.
Qed.

End Commit.

(** ** Image activation *)

Section Activation.

Variable K : kernel_config.
Variable H : pax_header.
Variable E : pax_engines.

(** The five hook calls of [pax_elf], followed by any continuation [k]:
    they leave the state alone, record one call per compiled-in hook and
    hand the aggregated flags to [k]. *)
Lemma run_hooks_then {B} (k : Z -> kern kstate B) td imgp mode s :
  (flags ← setup_flags H (PAX_ASLR K) "pax_aslr_setup_flags"
             (pax_aslr_setup_flags E) imgp td mode 0;
   flags ← setup_flags H (PAX_ASLR K && MAP_32BIT K)
             "pax_disallow_map32bit_setup_flags"
             (pax_disallow_map32bit_setup_flags E) imgp td mode flags;
   flags ← setup_flags H (PAX_NOEXEC K) "pax_noexec_setup_flags"
             (pax_noexec_setup_flags E) imgp td mode flags;
   flags ← setup_flags H (PAX_SEGVGUARD K) "pax_segvguard_setup_flags"
             (pax_segvguard_setup_flags E) imgp td mode flags;
   flags ← setup_flags H (PAX_HARDENING K) "pax_hardening_setup_flags"
             (pax_hardening_setup_flags E) imgp td mode flags;
   k flags) s =
  match k (aggregated_flags K H E imgp td mode) s with
  | Done b s' tr => Done b s' (hook_calls K E imgp td mode ++ tr)
  | Panic msg tr => Panic msg (hook_calls K E imgp td mode ++ tr)
  end.
Proof.
  unfold aggregated_flags, hook_calls, compiled_hooks, setup_flags.
  destruct (PAX_ASLR K), (MAP_32BIT K), (PAX_NOEXEC K), (PAX_SEGVGUARD K),
    (PAX_HARDENING K);
    cbv [mbind kern_bind mret kern_ret extern andb app fold_left map fst snd];
    match goal with |- context [k ?f s] => destruct (k f s) end;
    reflexivity.
Qed.

(** The outcome of the activation body, branch by branch. *)
Lemma run_pax_elf_activation td imgp s :
  let mode := pax_get_requested_flags K H imgp in
  let flags := aggregated_flags K H E imgp td mode in
  let klog fmt arg := EvLogKernel (PAX_LOG_DEFAULT H) fmt arg in
  let setup := hook_calls K E imgp td mode ++
               [EvKtr "%s : flags = %x mode = %x"] in
  pax_elf_activation K H E td imgp s =
  if negb (Z.eqb (pax_validate_flags H mode) 0) then
    Done ENOEXEC s
      [klog "unknown paxflags: %x" (Some mode);
       EvLogUser "unknown paxflags: %x\n" (Some mode)]
  else if negb (Z.eqb (pax_check_conflicting_modes H mode) 0) then
    Done ENOEXEC s
      [klog "inconsistent paxflags: %x" (Some mode);
       EvLogUser "inconsistent paxflags: %x\n" (Some mode)]
  else if negb (Z.eqb (pax_validate_flags H flags) 0) then
    Done ENOEXEC s
      (setup ++
       [klog "unknown paxflags after the setup: %x" (Some flags);
        EvLogUser "unknown paxflags after the setup: %x\n" (Some flags)])
  else if negb (Z.eqb (pax_check_conflicting_modes H flags) 0) then
    Done ENOEXEC s
      (setup ++
       [klog "inconsistent paxflags after the setup: %x" (Some flags);
        EvLogUser "inconsistent paxflags after the setup: %x\n"
          (Some flags)])
  else
    match pax_set_flags K (imgp_proc imgp) td
            (committed_flags K H E imgp td) s with
    | Done _ s' tr =>
        Done 0 s'
          (setup ++ tr ++
           if negb (Z.eqb mode 0)
           then [klog "the process started with non-default hardening settings"
                   None]
           else [])
    | Panic msg tr => Panic msg (setup ++ tr)
    end.
Proof.
  intros mode flags klog setup. unfold pax_elf_activation.
  fold mode.
  destruct (negb (Z.eqb (pax_validate_flags H mode) 0)); [reflexivity |].
  destruct (negb (Z.eqb (pax_check_conflicting_modes H mode) 0));
    [reflexivity |].
  rewrite run_hooks_then. fold flags.
  rewrite run_bind. unfold emit at 1.
  destruct (negb (Z.eqb (pax_validate_flags H flags) 0)).
  { unfold setup. rewrite <- app_assoc. reflexivity. }
  destruct (negb (Z.eqb (pax_check_conflicting_modes H flags) 0)).
  { unfold setup. rewrite <- app_assoc. reflexivity. }
  rewrite run_bind.
  replace (if PAX_CONTROL_ACL K && PAX_CONTROL_ACL_OVERRIDE_SUPPORT K
           then if Z.eqb (Z.land mode (PAX_NOTE_PREFER_ACL H))
                         (PAX_NOTE_PREFER_ACL H)
                then pax_flag_wrap H (Z.lor flags (PAX_NOTE_PREFER_ACL H))
                else Z.land flags (pax_flag_not H (PAX_NOTE_PREFER_ACL H))
           else flags)
    with (committed_flags K H E imgp td) by reflexivity.
  destruct (pax_set_flags K (imgp_proc imgp) td
              (committed_flags K H E imgp td) s) as [[] s' tr | msg tr].
  - unfold setup. rewrite <- !app_assoc. simpl.
    destruct (negb (Z.eqb mode 0)); simpl; rewrite ?app_nil_r; reflexivity.
  - unfold setup. rewrite <- !app_assoc. reflexivity.
Qed.

Lemma hook_calls_no_lock td imgp mode :
  Forall (fun e => is_lock_op e = false) (hook_calls K E imgp td mode).
Proof.
  unfold hook_calls. apply List.Forall_forall. intros e Hin.
  apply in_map_iff in Hin as (h & <- & _). reflexivity.
Qed.

(** Past the prefer-ACL test, [pax_elf] is its activation body. *)
Lemma pax_elf_past_test td imgp s :
  not_short_circuited K H td s ->
  pax_elf K H E td imgp s = pax_elf_activation K H E td imgp s.
Proof.
  intros Hpast. unfold pax_elf. unfold not_short_circuited, acl_override in Hpast.
  destruct (PAX_CONTROL_ACL K && PAX_CONTROL_ACL_OVERRIDE_SUPPORT K);
    [| reflexivity].
  destruct (Hpast eq_refl) as (flags & Hget & Hno).
  rewrite (run_bind_done _ _ _ flags) by exact Hget.
  unfold prefers_acl in Hno. rewrite Hno. reflexivity.
Qed.

(** C1 (amended): for every image activation that gets past the
    prefer-ACL test at the top of [pax_elf], if either validator fails, on
    the requested mode or on the aggregated result, then [pax_elf] returns
    ENOEXEC, its trace ends with a kernel log line and a user log line
    carrying the offending mask, and the kernel state is the one it
    started from: no lock is taken, so [pax_set_flags] is never reached and
    the masks of the process and of its threads are unchanged. *)
Theorem pax_elf_rejects td imgp s :
  not_short_circuited K H td s ->
  validation_fails K H E imgp td ->
  exists setup kfmt ufmt arg,
    pax_elf K H E td imgp s =
      Done ENOEXEC s
        (setup ++ [EvLogKernel (PAX_LOG_DEFAULT H) kfmt (Some arg);
                   EvLogUser ufmt (Some arg)]) /\
    Forall (fun e => is_lock_op e = false)
      (trace_of (pax_elf K H E td imgp s)).
Proof.
  intros Hpast Hfail.
  rewrite (pax_elf_past_test td imgp s Hpast).
  rewrite run_pax_elf_activation.
  unfold validation_fails in Hfail. cbv zeta in *.
  set (mode := pax_get_requested_flags K H imgp) in *.
  set (flags := aggregated_flags K H E imgp td mode) in *.
  assert (Hsetup : Forall (fun e => is_lock_op e = false)
            (hook_calls K E imgp td mode ++
             [EvKtr "%s : flags = %x mode = %x"])).
  { apply Forall_app. split; [apply hook_calls_no_lock |].
    repeat constructor. }
  destruct (Z.eqb_spec (pax_validate_flags H mode) 0) as [Hv1 | Hv1]; simpl.
  2:{ exists [], "unknown paxflags: %x", "unknown paxflags: %x\n", mode.
      split; [reflexivity | repeat constructor]. }
  destruct (Z.eqb_spec (pax_check_conflicting_modes H mode) 0)
    as [Hc1 | Hc1]; simpl.
  2:{ exists [], "inconsistent paxflags: %x",
        "inconsistent paxflags: %x\n", mode.
      split; [reflexivity | repeat constructor]. }
  destruct (Z.eqb_spec (pax_validate_flags H flags) 0) as [Hv2 | Hv2]; simpl.
  2:{ eexists _, _, _, _. split; [reflexivity |].
      apply Forall_app. split; [exact Hsetup | repeat constructor]. }
  destruct (Z.eqb_spec (pax_check_conflicting_modes H flags) 0)
    as [Hc2 | Hc2]; simpl.
  2:{ eexists _, _, _, _. split; [reflexivity |].
      apply Forall_app. split; [exact Hsetup | repeat constructor]. }
  exfalso. destruct Hfail as [? | [? | [? | ?]]]; contradiction.
Qed.

(** When the mask read at the top of [pax_elf] carries the marker, the
    function is done. *)
Lemma run_pax_elf_marked td imgp s flags :
  acl_override K = true ->
  pax_get_flags_td K td s = Done flags s [] ->
  prefers_acl H flags = true ->
  pax_elf K H E td imgp s = Done 0 s [].
Proof.
  intros Hov Hget Hmark. unfold pax_elf.
  unfold acl_override in Hov. rewrite Hov.
  rewrite (run_bind_done _ _ _ flags) by exact Hget.
  unfold prefers_acl in Hmark. rewrite Hmark. reflexivity.
Qed.

(** The running thread gets past the prefer-ACL test when its mask lacks
    the marker. *)
Lemma not_short_circuited_running_thread td s t :
  ks_curthread s = td ->
  ks_threads s !! td = Some t ->
  (HBSD_DEBUG K = true -> debug_checks_hold s td) ->
  prefers_acl H (td_pax t) = false ->
  not_short_circuited K H td s.
Proof.
  intros Hcur Ht Hdebug Hno _. exists (td_pax t).
  split; [| exact Hno]. apply run_pax_get_flags_td; assumption.
Qed.

(** C7: when ACL override support is compiled in and the committed mask of
    the current thread carries the PAX_NOTE_PREFER_ACL marker, [pax_elf]
    returns 0 at once: the state is unchanged, so the masks of the process
    and of its threads are; the trace is empty, so no hook was invoked and
    nothing was logged or locked; and the outcome is the same for every
    image record, so the requested mode was not consulted.  (In a debug
    build the thread's process must meet the assertions of
    [pax_get_flags_td].) *)
Theorem pax_elf_short_circuit td imgp s t :
  acl_override K = true ->
  ks_curthread s = td ->
  ks_threads s !! td = Some t ->
  (HBSD_DEBUG K = true -> debug_checks_hold s td) ->
  prefers_acl H (td_pax t) = true ->
  pax_elf K H E td imgp s = Done 0 s [] /\
  (forall imgp', pax_elf K H E td imgp' s = Done 0 s []).
Proof.
  intros Hov Hcur Ht Hdebug Hmark.
  assert (Hget : pax_get_flags_td K td s = Done (td_pax t) s [])
    by (apply run_pax_get_flags_td; assumption).
  split; [| intros imgp']; eapply run_pax_elf_marked; eassumption.
Qed.

(** X21: on a state that meets the contract of [pax_set_flags], an
    activation that gets past the prefer-ACL test and passes all four
    checks returns 0 and leaves the process and its threads with the
    committed mask. *)
Lemma pax_elf_commits td imgp s :
  not_short_circuited K H td s ->
  ~ validation_fails K H E imgp td ->
  commit_ready s (imgp_proc imgp) td ->
  exists s' tr pr',
    pax_elf K H E td imgp s = Done 0 s' tr /\
    In (EvProcLock (imgp_proc imgp)) tr /\
    ks_procs s' !! imgp_proc imgp = Some pr' /\
    p_pax pr' = committed_flags K H E imgp td /\
    threads_agree s' (imgp_proc imgp).
Proof.
  intros Hpast Hok Hready.
  rewrite (pax_elf_past_test td imgp s Hpast), run_pax_elf_activation.
  unfold validation_fails in Hok. cbv zeta in *.
  set (mode := pax_get_requested_flags K H imgp) in *.
  set (flags := aggregated_flags K H E imgp td mode) in *.
  destruct (Z.eqb_spec (pax_validate_flags H mode) 0); [| tauto].
  destruct (Z.eqb_spec (pax_check_conflicting_modes H mode) 0); [| tauto].
  destruct (Z.eqb_spec (pax_validate_flags H flags) 0); [| tauto].
  destruct (Z.eqb_spec (pax_check_conflicting_modes H flags) 0); [| tauto].
  simpl.
  pose proof Hready as (_ & _ & pr & Hp & _).
  destruct (run_pax_set_flags K s (imgp_proc imgp) td
              (committed_flags K H E imgp td) pr Hready Hp)
    as (s' & Hrun & Hprocs & Hcur' & Hin & Hout).
  destruct (pax_set_flags_post s (imgp_proc imgp) td
              (committed_flags K H E imgp td) pr s' Hready Hp Hprocs Hcur'
              Hin Hout) as (Hagree & _).
  rewrite Hrun. eexists _, _, _. split; [reflexivity |].
  split; [| split; [| split; [| exact Hagree]]].
  - apply in_or_app. right. left. reflexivity.
  - rewrite Hprocs. apply lookup_insert_eq.
  - reflexivity.
Qed.

(** The marker test on the mask handed to the commit. *)
Lemma committed_flags_marker td imgp :
  acl_override K = true ->
  0 < PAX_NOTE_PREFER_ACL H < 2 ^ pax_flag_bits H ->
  prefers_acl H (committed_flags K H E imgp td) =
  prefers_acl H (pax_get_requested_flags K H imgp).
Proof.
  intros Hov HP. unfold committed_flags. rewrite Hov.
  set (P := PAX_NOTE_PREFER_ACL H) in *.
  set (flags := aggregated_flags _ _ _ _ _ _).
  assert (Hw : 0 <= pax_flag_bits H).
  { destruct (Z.ltb_spec (pax_flag_bits H) 0) as [Hneg | ?]; [| assumption].
    rewrite Z.pow_neg_r in HP by assumption. lia. }
  destruct (prefers_acl H (pax_get_requested_flags K H imgp)) eqn:Hmode.
  - unfold prefers_acl. fold P. apply Z.eqb_eq.
    apply Z.bits_inj'. intros i Hi. rewrite Z.land_spec.
    unfold pax_flag_wrap.
    destruct (Z.ltb_spec i (pax_flag_bits H)) as [Hlt | Hge].
    + rewrite Z.mod_pow2_bits_low by assumption.
      rewrite Z.lor_spec. destruct (Z.testbit flags i), (Z.testbit P i);
        reflexivity.
    + rewrite Z.mod_pow2_bits_high by lia.
      symmetry. apply (flag_testbit_high H); [lia | assumption].
  - unfold prefers_acl. fold P. apply Z.eqb_neq.
    assert (Hzero : Z.land (Z.land flags (pax_flag_not H P)) P = 0).
    { apply Z.bits_inj'. intros i Hi.
      rewrite !Z.land_spec, Z.bits_0.
      unfold pax_flag_not, pax_flag_wrap.
      destruct (Z.ltb_spec i (pax_flag_bits H)) as [Hlt | Hge].
      - rewrite Z.mod_pow2_bits_low by assumption.
        rewrite Z.lnot_spec by assumption.
        destruct (Z.testbit flags i), (Z.testbit P i); reflexivity.
      - rewrite Z.mod_pow2_bits_high by lia.
        rewrite andb_false_r. reflexivity. }
    rewrite Hzero. lia.
Qed.

(** C6: with ACL override support compiled in, on every activation that
    succeeds by committing, the mask handed to [pax_set_flags] carries the
    PAX_NOTE_PREFER_ACL marker if and only if the requested mode carries
    it; the commit comes after the calls to the engine hooks. *)
Theorem pax_elf_commit_keeps_marker td imgp s s' tr :
  acl_override K = true ->
  0 < PAX_NOTE_PREFER_ACL H < 2 ^ pax_flag_bits H ->
  pax_elf K H E td imgp s = Done 0 s' tr ->
  In (EvProcLock (imgp_proc imgp)) tr ->
  (exists tr_commit tr_log,
     pax_set_flags K (imgp_proc imgp) td (committed_flags K H E imgp td) s =
       Done tt s' tr_commit /\
     tr = hook_calls K E imgp td (pax_get_requested_flags K H imgp) ++
          [EvKtr "%s : flags = %x mode = %x"] ++ tr_commit ++ tr_log) /\
  (prefers_acl H (committed_flags K H E imgp td) = true <->
   prefers_acl H (pax_get_requested_flags K H imgp) = true).
Proof.
  intros Hov HP Hrun Hlock.
  split; [| rewrite committed_flags_marker by assumption; reflexivity].
  assert (Hact : pax_elf_activation K H E td imgp s = Done 0 s' tr).
  { unfold pax_elf in Hrun. unfold acl_override in Hov. rewrite Hov in Hrun.
    apply bind_done_inv in Hrun as (f & s1 & tr1 & tr2 & Hget & Hrest & ->).
    destruct (pax_get_flags_td_done K td s f s1 tr1 Hget) as (-> & -> & _).
    destruct (Z.eqb (Z.land f (PAX_NOTE_PREFER_ACL H))
                    (PAX_NOTE_PREFER_ACL H)).
    - cbv [mret kern_ret] in Hrest. inversion Hrest; subst.
      destruct Hlock.
    - exact Hrest. }
  rewrite run_pax_elf_activation in Hact. cbv zeta in Hact.
  repeat match type of Hact with
  | (if ?c then Done ENOEXEC _ _ else _) = _ =>
      destruct c; [discriminate |]
  end.
  destruct (pax_set_flags K (imgp_proc imgp) td
              (committed_flags K H E imgp td) s) as [[] s2 tr2 | msg tr2];
    [| discriminate].
  inversion Hact; subst. eexists _, _. split; [reflexivity |].
  rewrite <- !app_assoc. reflexivity.
Qed.

End Activation.

(** ** Request resolver *)

Section Resolver.

Variable K : kernel_config.
Variable H : pax_header.

(** C2: with both control channels compiled in, the resolver returns the
    ACL-origin value whenever that value carries the prefer-ACL marker,
    whatever the extended-attribute value is; otherwise it returns the
    extended-attribute value, except that it returns the ACL-origin value
    when the extended-attribute value is zero and the ACL-origin value is
    not. *)
Theorem pax_get_requested_flags_both imgp :
  PAX_CONTROL_ACL K = true ->
  PAX_CONTROL_EXTATTR K = true ->
  let acl := req_acl_flags imgp in
  let extattr := req_extattr_flags imgp in
  let marked := Z.land acl (PAX_NOTE_PREFER_ACL H) <> 0 in
  (marked -> pax_get_requested_flags K H imgp = acl) /\
  (marked -> forall extattr',
     pax_get_requested_flags K H
       {| imgp_proc := imgp_proc imgp; req_acl_flags := acl;
          req_extattr_flags := extattr' |} = acl) /\
  (~ marked -> extattr = 0 -> acl <> 0 ->
     pax_get_requested_flags K H imgp = acl) /\
  (~ marked -> ~ (extattr = 0 /\ acl <> 0) ->
     pax_get_requested_flags K H imgp = extattr).
Proof.
  intros Hacl Hext acl extattr marked.
  unfold pax_get_requested_flags. rewrite Hacl, Hext. simpl.
  fold acl extattr. subst marked.
  repeat split.
  - intros Hm.
    destruct (Z.eqb_spec (Z.land acl (PAX_NOTE_PREFER_ACL H)) 0);
      [contradiction |]. simpl.
    destruct (Z.eqb_spec acl 0); simpl; rewrite ?andb_false_r; reflexivity.
  - intros Hm extattr'.
    destruct (Z.eqb_spec (Z.land acl (PAX_NOTE_PREFER_ACL H)) 0);
      [contradiction |]. simpl.
    destruct (Z.eqb_spec acl 0); simpl; rewrite ?andb_false_r; reflexivity.
  - intros Hm He Ha.
    destruct (Z.eqb_spec (Z.land acl (PAX_NOTE_PREFER_ACL H)) 0);
      [| exfalso; auto]. simpl.
    rewrite He. destruct (Z.eqb_spec acl 0); [contradiction | reflexivity].
  - intros Hm Hnot.
    destruct (Z.eqb_spec (Z.land acl (PAX_NOTE_PREFER_ACL H)) 0);
      [| exfalso; auto]. simpl.
    destruct (Z.eqb_spec extattr 0) as [He | He];
      destruct (Z.eqb_spec acl 0) as [Ha | Ha]; simpl; try reflexivity.
    exfalso. auto.
Qed.

End Resolver.

(** ** Feature states and jail parameters *)

Section FeatureStateProperties.

Variable K : kernel_config.
Variable H : pax_header.

Lemma pax_feature_validate_state_legal state :
  In state (feature_states H) <->
  pax_feature_validate_state H state = (true, state).
Proof.
  unfold pax_feature_validate_state, feature_states. simpl.
  destruct (Z.eqb_spec state (PAX_FEATURE_DISABLED H));
    destruct (Z.eqb_spec state (PAX_FEATURE_OPTIN H));
    destruct (Z.eqb_spec state (PAX_FEATURE_OPTOUT H));
    destruct (Z.eqb_spec state (PAX_FEATURE_FORCE_ENABLED H));
    simpl; split; intros Hx; auto 6;
    try discriminate; intuition congruence.
Qed.

Lemma pax_feature_simple_validate_state_legal state :
  In state (simple_feature_states H) <->
  pax_feature_simple_validate_state H state = (true, state).
Proof.
  unfold pax_feature_simple_validate_state, simple_feature_states. simpl.
  destruct (Z.eqb_spec state (PAX_FEATURE_SIMPLE_DISABLED H));
    destruct (Z.eqb_spec state (PAX_FEATURE_SIMPLE_ENABLED H));
    simpl; split; intros Hx; auto;
    try discriminate; intuition congruence.
Qed.

(** C8: a state that is a member of the legal set is left unchanged and
    the validator returns true; for any other value the validator writes
    back PAX_FEATURE_FORCE_ENABLED (PAX_FEATURE_SIMPLE_ENABLED for the
    two-state validator) and returns false; either way the state the
    caller is left with is legal. *)
Theorem pax_feature_validate_state_normalizes state :
  (In state (feature_states H) ->
     pax_feature_validate_state H state = (true, state)) /\
  (~ In state (feature_states H) ->
     pax_feature_validate_state H state =
     (false, PAX_FEATURE_FORCE_ENABLED H)) /\
  In (snd (pax_feature_validate_state H state)) (feature_states H) /\
  (In state (simple_feature_states H) ->
     pax_feature_simple_validate_state H state = (true, state)) /\
  (~ In state (simple_feature_states H) ->
     pax_feature_simple_validate_state H state =
     (false, PAX_FEATURE_SIMPLE_ENABLED H)) /\
  In (snd (pax_feature_simple_validate_state H state))
     (simple_feature_states H).
Proof.
  pose proof (pax_feature_validate_state_legal state) as Hl.
  pose proof (pax_feature_simple_validate_state_legal state) as Hs.
  split; [apply Hl |]. split; [| split; [| split; [apply Hs | split]]].
  - intros Hn. unfold pax_feature_validate_state in *.
    destruct (_ || _); [| reflexivity].
    exfalso. apply Hn, Hl. reflexivity.
  - unfold pax_feature_validate_state in *.
    destruct (_ || _); simpl; [apply Hl; reflexivity |].
    unfold feature_states. simpl. auto.
  - intros Hn. unfold pax_feature_simple_validate_state in *.
    destruct (_ || _); [| reflexivity].
    exfalso. apply Hn, Hs. reflexivity.
  - unfold pax_feature_simple_validate_state in *.
    destruct (_ || _); simpl; [apply Hs; reflexivity |].
    unfold simple_feature_states. simpl. auto.
Qed.

Variable O : Type.
Variable vfs_copyopt : O -> string -> Z * Z.

(** C10: when vfs_copyopt finds the parameter (error 0) but the value
    fails [pax_feature_validate_state], the status is left as it was (the
    coerced value is dropped) and the function returns 0, exactly what it
    returns when the parameter is absent (ENOENT); the return value is
    non-zero only when jail support is compiled in and vfs_copyopt fails
    with an error other than ENOENT, and it is then that error. *)
Theorem pax_handle_prison_param_invalid opts mib status :
  let r := pax_handle_prison_param K H O vfs_copyopt opts mib status in
  (forall v, vfs_copyopt opts mib = (0, v) ->
     fst (pax_feature_validate_state H v) = false ->
     r = (0, status)) /\
  (forall v, vfs_copyopt opts mib = (ENOENT, v) -> r = (0, status)) /\
  (fst r <> 0 <->
     PAX_JAIL_SUPPORT K = true /\
     fst (vfs_copyopt opts mib) <> 0 /\
     fst (vfs_copyopt opts mib) <> ENOENT) /\
  (fst r <> 0 -> r = (fst (vfs_copyopt opts mib), status)).
Proof.
  intros r. subst r. unfold pax_handle_prison_param.
  destruct (PAX_JAIL_SUPPORT K).
  2:{ simpl. split; [reflexivity |]. split; [reflexivity |].
      split; [| intros Hr; contradiction].
      split; [intros Hr; contradiction | intros [Hj _]; discriminate]. }
  destruct (vfs_copyopt opts mib) as [error new_state]. simpl.
  destruct (Z.eqb_spec error ENOENT) as [-> | Hne].
  { simpl. split; [reflexivity |]. split; [reflexivity |].
    split; [| intros Hr; contradiction].
    split; [intros Hr; contradiction | intros (_ & _ & Hr); contradiction]. }
  destruct (Z.eqb_spec error 0) as [-> | Hnz].
  - destruct (pax_feature_validate_state H new_state) as [valid st] eqn:Hv.
    split; [| split; [| split]].
    + intros v Hcopy Hbad. inversion Hcopy; subst v.
      rewrite Hv in Hbad. simpl in Hbad. subst valid. reflexivity.
    + intros v Hcopy. exfalso. apply (f_equal fst) in Hcopy. simpl in Hcopy.
      auto.
    + destruct valid; simpl;
        (split; [intros Hr; contradiction | intros (_ & Hr & _); contradiction]).
    + destruct valid; simpl; intros Hr; contradiction.
  - simpl. split; [| split; [| split]].
    + intros v Hcopy. exfalso. apply (f_equal fst) in Hcopy. simpl in Hcopy.
      auto.
    + intros v Hcopy. exfalso. apply (f_equal fst) in Hcopy. simpl in Hcopy.
      auto.
    + split; [intros _; auto | intros _; assumption].
    + reflexivity.
Qed.

End FeatureStateProperties.

(** ** Jail policy initializer *)

Section PrisonProperties.

Variable K : kernel_config.
Variables P O : Type.
Variable PE : prison_engines P O.
Variable prison0 : N.

(** C9: [pax_init_prison] calls the compiled-in initializers in the fixed
    order ASLR, hardening, no-exec, segv-guard, 32-bit ASLR (under
    COMPAT_FREEBSD32), logging; a call that fails is the last one made; the
    result is true exactly when every compiled-in initializer was called
    and returned 0, and false otherwise, except that for prison0 a false
    result trips the KASSERT (a panic in a kernel built with INVARIANTS)
    instead of being returned. *)
Theorem pax_init_prison_short_circuits pr opts s :
  let r := pax_init_prison K P O PE prison0 pr opts s in
  let calls := calls_of (trace_of r) in
  map fst calls = take (length calls) (initializer_order K) /\
  (forall i c, calls !! i = Some c -> c.2 <> 0 -> length calls = Datatypes.S i) /\
  (all_succeeded calls = true ->
     map fst calls = initializer_order K /\
     exists s', r = Done true s' (trace_of r)) /\
  (all_succeeded calls = false ->
     (INVARIANTS K = true -> pr = prison0 ->
        r = Panic "Unexpected error during prison0 initialization."
              (trace_of r)) /\
     (INVARIANTS K = false \/ pr <> prison0 ->
        exists s', r = Done false s' (trace_of r))).
Proof.
  intros r calls. subst calls r.
  unfold pax_init_prison, initializer_order, all_succeeded, calls_of.
  cbv [mbind kern_bind mret kern_ret emit extern KASSERT].
  repeat match goal with
  | Hx : Z.eqb ?rc 0 = _ |- context [Z.eqb ?rc 0] => rewrite Hx; simpl
  | |- context [?f PE pr opts ?s0] =>
      destruct (f PE pr opts s0) as [? ?]; simpl
  | |- context [Z.eqb ?rc 0] => destruct (Z.eqb rc 0) eqn:?; simpl
  | |- context [COMPAT_FREEBSD32 K] => destruct (COMPAT_FREEBSD32 K); simpl
  end.
  all: destruct (INVARIANTS K); simpl.
  all: destruct (N.eqb_spec pr prison0); simpl.
  all: repeat match goal with
       | Hx : Z.eqb ?rc 0 = _ |- context [Z.eqb ?rc 0] => rewrite Hx
       end; simpl.
  all: split; [reflexivity |].
  all: split;
    [ intros i c Hl Hne;
      repeat (destruct i as [| i]; simpl in Hl;
              [ inversion Hl; subst c; simpl in Hne;
                first [ reflexivity
                      | exfalso; apply Hne; apply Z.eqb_eq; assumption ]
              | try discriminate Hl ]) |].
  all: split;
    [ intros Hall;
      first [ discriminate Hall
            | split; [reflexivity | eexists; reflexivity] ] |].
  all: intros Hall; first [discriminate Hall | idtac].
  all: split;
    [ intros Hinv Hpr; first [reflexivity | discriminate | contradiction]
    | intros [Hinv | Hpr];
      first [discriminate | contradiction | eexists; reflexivity] ].
Qed.

End PrisonProperties.

(** * Further properties *)

(** ** The validators as predicates on sets of bits *)

Section ValidatorAlgebra.

Variable H : pax_header.

Lemma pax_validate_flags_zero m :
  pax_validate_flags H m = 0 <->
  Z.land m (pax_flag_not H (PAX_NOTE_ALL H)) = 0.
Proof.
  unfold pax_validate_flags.
  destruct (Z.eqb_spec (Z.land m (pax_flag_not H (PAX_NOTE_ALL H))) 0);
    simpl; split; intros; try assumption; try reflexivity; try lia.
Qed.

Lemma pax_check_conflicting_modes_zero m :
  pax_check_conflicting_modes H m = 0 <->
  Z.land (Z.land m (PAX_NOTE_ALL_ENABLED H))
         (Z.shiftr (Z.land m (PAX_NOTE_ALL_DISABLED H)) 1) = 0.
Proof.
  unfold pax_check_conflicting_modes.
  destruct (Z.eqb_spec
              (Z.land (Z.land m (PAX_NOTE_ALL_ENABLED H))
                 (Z.shiftr (Z.land m (PAX_NOTE_ALL_DISABLED H)) 1)) 0);
    simpl; split; intros; try assumption; try reflexivity; try lia.
Qed.

(** The bits of a wrapped value: those of the value below the width of the
    type. *)
Lemma testbit_pax_flag_wrap x i :
  0 <= i ->
  Z.testbit (pax_flag_wrap H x) i =
  if Z.ltb (pax_flag_bits H) 0 then Z.testbit x i
  else Z.ltb i (pax_flag_bits H) && Z.testbit x i.
Proof.
  intros Hi. unfold pax_flag_wrap.
  destruct (Z.ltb_spec (pax_flag_bits H) 0) as [Hneg | Hpos].
  - rewrite Z.pow_neg_r by assumption. rewrite Z.mod_0_r. reflexivity.
  - destruct (Z.ltb_spec i (pax_flag_bits H)) as [Hlt | Hge].
    + rewrite Z.mod_pow2_bits_low by assumption. reflexivity.
    + rewrite Z.mod_pow2_bits_high by lia. reflexivity.
Qed.

Lemma land_zero_bits a b :
  Z.land a b = 0 <->
  forall i, 0 <= i -> Z.testbit a i && Z.testbit b i = false.
Proof.
  split.
  - intros Hz i Hi. rewrite <- Z.land_spec, Hz. apply Z.bits_0.
  - intros Hbits. apply Z.bits_inj'. intros i Hi.
    rewrite Z.land_spec, Z.bits_0. apply Hbits. assumption.
Qed.

(** X1: the unknown-bits check treats a mask as a set of bits: the union
    of two masks is accepted exactly when both are, and any mask cut down
    to PAX_NOTE_ALL is accepted. *)
Theorem pax_validate_flags_union a b m :
  (pax_validate_flags H (Z.lor a b) = 0 <->
   pax_validate_flags H a = 0 /\ pax_validate_flags H b = 0) /\
  pax_validate_flags H (Z.land m (PAX_NOTE_ALL H)) = 0.
Proof.
  split.
  - rewrite !pax_validate_flags_zero, Z.land_lor_distr_l.
    apply Z.lor_eq_0_iff.
  - apply pax_validate_flags_zero, land_zero_bits. intros i Hi.
    rewrite Z.land_spec. unfold pax_flag_not.
    rewrite testbit_pax_flag_wrap by assumption.
    rewrite Z.lnot_spec by assumption.
    destruct (Z.testbit m i), (Z.testbit (PAX_NOTE_ALL H) i),
      (Z.ltb (pax_flag_bits H) 0), (Z.ltb i (pax_flag_bits H)); reflexivity.
Qed.

(** X2: both validators are monotone: a mask all of whose bits are set in
    an accepted mask is accepted too, so clearing bits never turns a valid
    mask into an invalid one. *)
Theorem validators_accept_submask a b :
  Z.land a b = a ->
  (pax_validate_flags H b = 0 -> pax_validate_flags H a = 0) /\
  (pax_check_conflicting_modes H b = 0 ->
   pax_check_conflicting_modes H a = 0).
Proof.
  intros Hsub.
  assert (Hbit : forall i, Z.testbit a i = true -> Z.testbit b i = true).
  { intros i Ha. rewrite <- Hsub in Ha.
    destruct (Z.ltb_spec i 0) as [Hneg | Hpos].
    - rewrite Z.testbit_neg_r in Ha by assumption. discriminate.
    - rewrite Z.land_spec in Ha. apply andb_true_iff in Ha. tauto. }
  split.
  - rewrite !pax_validate_flags_zero, !land_zero_bits.
    intros Hb i Hi. specialize (Hb i Hi).
    destruct (Z.testbit a i) eqn:Ha; [| reflexivity].
    rewrite (Hbit i Ha) in Hb. exact Hb.
  - rewrite !pax_check_conflicting_modes_zero, !land_zero_bits.
    intros Hb i Hi. specialize (Hb i Hi).
    rewrite !Z.land_spec, Z.shiftr_spec, Z.land_spec in * by assumption.
    destruct (Z.testbit a i) eqn:Ha; [| reflexivity].
    destruct (Z.testbit a (i + 1)) eqn:Ha1;
      [| rewrite andb_false_r; reflexivity].
    rewrite (Hbit i Ha), (Hbit (i + 1) Ha1) in Hb. exact Hb.
Qed.

End ValidatorAlgebra.

(** ** The aggregated flags *)

Section Aggregate.

Variable K : kernel_config.
Variable H : pax_header.
Variable E : pax_engines.




End Aggregate.

(** ** More on the flag storage *)

Section StorageMore.

Variable K : kernel_config.

Lemma thread_at_done td s t s1 tr :
  thread_at td s = Done t s1 tr ->
  ks_threads s !! td = Some t /\ s1 = s /\ tr = [].
Proof.
  unfold thread_at. destruct (ks_threads s !! td); [| discriminate].
  intros Hd. inversion Hd; subst. auto.
Qed.

Lemma proc_at_done p s pr s1 tr :
  proc_at p s = Done pr s1 tr ->
  ks_procs s !! p = Some pr /\ s1 = s /\ tr = [].
Proof.
  unfold proc_at. destruct (ks_procs s !! p); [| discriminate].
  intros Hd. inversion Hd; subst. auto.
Qed.

(** A KASSERT that lets a checking kernel go on had a true condition. *)
Lemma KASSERT_done {S} (cond : kern S bool) msg (s s1 : S) u tr :
  INVARIANTS K = true ->
  KASSERT K cond msg s = Done u s1 tr ->
  exists tr', cond s = Done true s1 tr'.
Proof.
  intros HK. unfold KASSERT. rewrite HK. intros Hrun.
  apply bind_done_inv in Hrun as (b & s2 & tr1 & tr2 & Hc & Hk & _).
  destruct b; [| discriminate].
  cbv [mret kern_ret] in Hk. inversion Hk; subst. eauto.
Qed.

Lemma debug_loop_done p s pr l s1 tr :
  INVARIANTS K = true ->
  ks_procs s !! p = Some pr ->
  foreach l (fun td =>
    KASSERT K (t ← thread_at td;
               pr' ← proc_at p;
               mret (Z.eqb (td_pax t) (p_pax pr')))
            "%s: td->td_pax != p->p_pax") s = Done tt s1 tr ->
  forall td0, In td0 l ->
    exists t0, ks_threads s !! td0 = Some t0 /\ td_pax t0 = p_pax pr.
Proof.
  intros HK Hp. revert tr. induction l as [| x l IH]; intros tr Hrun td0 Hin.
  - destruct Hin.
  - simpl in Hrun.
    apply bind_done_inv in Hrun as ([] & s2 & tr1 & tr2 & Hx & Hrest & _).
    apply (KASSERT_done _ _ _ _ _ _ HK) in Hx as (tr' & Hc).
    apply bind_done_inv in Hc as (t0 & s3 & tr3 & tr4 & Ht0 & Hc & _).
    apply thread_at_done in Ht0 as (Ht0 & -> & _).
    apply bind_done_inv in Hc as (pr' & s4 & tr5 & tr6 & Hpr & Hc & _).
    apply proc_at_done in Hpr as (Hpr & -> & _).
    cbv [mret kern_ret] in Hc. inversion Hc; subst s2.
    rewrite Hp in Hpr. inversion Hpr; subst pr'.
    destruct Hin as [<- | Hin].
    + exists t0. split; [assumption |]. apply Z.eqb_eq. assumption.
    + eapply IH; eassumption.
Qed.


(** X5: in a kernel built with INVARIANTS and HBSD_DEBUG, [pax_get_flags]
    returns exactly when the running thread belongs to [p] and every
    thread on the queue of [p] carries the mask of [p]; it then returns
    that mask.  The debug loop lets no violation of the invariant pass. *)
Theorem pax_get_flags_checks_invariant p s :
  INVARIANTS K = true ->
  HBSD_DEBUG K = true ->
  ((exists flags s1 tr, pax_get_flags K p s = Done flags s1 tr) <->
   (exists t, ks_threads s !! ks_curthread s = Some t /\ td_proc t = p) /\
   threads_agree s p) /\
  (forall flags s1 tr,
     pax_get_flags K p s = Done flags s1 tr ->
     exists pr, ks_procs s !! p = Some pr /\ flags = p_pax pr).
Proof.
  intros HK HD.
  assert (Hinv : forall flags s1 tr,
            pax_get_flags K p s = Done flags s1 tr ->
            (exists t, ks_threads s !! ks_curthread s = Some t /\
                       td_proc t = p) /\
            threads_agree s p /\
            exists pr, ks_procs s !! p = Some pr /\ flags = p_pax pr).
  { intros flags s1 tr Hrun. unfold pax_get_flags in Hrun. rewrite HD in Hrun.
    apply bind_done_inv in Hrun as ([] & s2 & tr1 & tr2 & Hk & Hrun & _).
    apply (KASSERT_done _ _ _ _ _ _ HK) in Hk as (tr' & Hc).
    apply bind_done_inv in Hc as (cur & s3 & tr3 & tr4 & Hcur & Hc & _).
    cbv [gets] in Hcur. inversion Hcur; subst cur s3.
    apply bind_done_inv in Hc as (t & s4 & tr5 & tr6 & Ht & Hc & _).
    apply thread_at_done in Ht as (Ht & -> & _).
    cbv [mret kern_ret] in Hc. inversion Hc; subst s2.
    apply bind_done_inv in Hrun as ([] & s5 & tr7 & tr8 & Hloop & Hrun & _).
    apply bind_done_inv in Hloop as (pr & s6 & tr9 & tr10 & Hp & Hloop & _).
    apply proc_at_done in Hp as (Hp & -> & _).
    assert (Hs5 : s5 = s).
    { eapply read_only_done; [| exact Hloop].
      apply read_only_foreach. intros x. apply read_only_KASSERT.
      apply read_only_bind; [apply read_only_thread_at |]. intros t1.
      apply read_only_bind; [apply read_only_proc_at |]. intros pr1.
      apply read_only_ret. }
    subst s5.
    apply bind_done_inv in Hrun as (pr2 & s7 & tr11 & tr12 & Hp2 & Hrun & _).
    apply proc_at_done in Hp2 as (Hp2 & -> & _).
    cbv [mret kern_ret] in Hrun. inversion Hrun; subst.
    rewrite Hp in Hp2. inversion Hp2; subst pr2.
    split; [| split].
    - exists t. split; [assumption |]. symmetry. apply N.eqb_eq. assumption.
    - exists pr. split; [assumption |].
      eapply debug_loop_done; eassumption.
    - exists pr. auto. }
  split; [split |].
  - intros (flags & s1 & tr & Hrun).
    destruct (Hinv flags s1 tr Hrun) as (Hcur & Hagree & _). auto.
  - intros ((t & Ht & Hproc) & Hagree).
    destruct (run_pax_get_flags K p s t Ht Hproc Hagree) as (pr & _ & Hget).
    eauto.
  - intros flags s1 tr Hrun. apply (Hinv flags s1 tr Hrun).
Qed.

Lemma kstate_eq (a b : kstate) :
  ks_procs a = ks_procs b -> ks_threads a = ks_threads b ->
  ks_curthread a = ks_curthread b -> a = b.
Proof. destruct a, b. simpl. intros -> -> ->. reflexivity. Qed.

(** X6: a commit touches nothing but the mask of [p] and the masks of the
    threads on its queue: the running thread, every other process, every
    thread off the queue, the queue itself and the process each thread
    belongs to are as before, and no thread appears or disappears. *)
Theorem pax_set_flags_frame s p td flags pr :
  commit_ready s p td ->
  ks_procs s !! p = Some pr ->
  exists s',
    pax_set_flags K p td flags s = Done tt s' [EvProcLock p; EvProcUnlock p] /\
    ks_curthread s' = ks_curthread s /\
    (forall q, q <> p -> ks_procs s' !! q = ks_procs s !! q) /\
    p_threads <$> ks_procs s' !! p = Some (p_threads pr) /\
    (forall td0, ~ In td0 (p_threads pr) ->
       ks_threads s' !! td0 = ks_threads s !! td0) /\
    (forall td0,
       td_proc <$> ks_threads s' !! td0 = td_proc <$> ks_threads s !! td0).
Proof.
  intros Hready Hp.
  destruct (run_pax_set_flags K s p td flags pr Hready Hp)
    as (s' & Hrun & Hprocs & Hcur & Hin & Hout).
  exists s'. split; [exact Hrun |]. split; [exact Hcur |].
  split; [| split; [| split; [exact Hout |]]].
  - intros q Hq. rewrite Hprocs. apply lookup_insert_ne. congruence.
  - rewrite Hprocs, lookup_insert_eq. reflexivity.
  - intros td0. destruct (In_dec N.eq_dec td0 (p_threads pr)) as [Hmem | Hnot].
    + destruct (Hin td0 Hmem) as (t0 & Ht0 & Hs'). rewrite Ht0, Hs'.
      reflexivity.
    + rewrite (Hout td0 Hnot). reflexivity.
Qed.

Lemma commit_ready_after s p td flags pr s' :
  commit_ready s p td ->
  ks_procs s !! p = Some pr ->
  ks_procs s' =
    <[p := {| p_pax := flags; p_threads := p_threads pr |}]> (ks_procs s) ->
  ks_curthread s' = ks_curthread s ->
  (forall td0, In td0 (p_threads pr) ->
     exists t0, ks_threads s !! td0 = Some t0 /\
       ks_threads s' !! td0 =
       Some {| td_proc := td_proc t0; td_pax := flags |}) ->
  (forall td0, ~ In td0 (p_threads pr) ->
     ks_threads s' !! td0 = ks_threads s !! td0) ->
  commit_ready s' p td.
Proof.
  intros Hready Hp Hprocs Hcur Hin Hout.
  destruct (pax_set_flags_post s p td flags pr s' Hready Hp Hprocs Hcur
              Hin Hout) as (_ & t' & Ht' & Hproc').
  destruct Hready as (Hc & _ & _).
  split; [congruence |]. split.
  - exists t'. rewrite Hcur, Hc in Ht'. auto.
  - exists {| p_pax := flags; p_threads := p_threads pr |}. split.
    + rewrite Hprocs. apply lookup_insert_eq.
    + simpl. intros td0 Hmem. destruct (Hin td0 Hmem) as (t0 & _ & Hs').
      rewrite Hs'. eauto.
Qed.

(** X7: a commit replaces the masks, it does not merge into them: the state
    after committing [f1] and then [f2] is the state after committing [f2]
    alone. *)
Theorem pax_set_flags_overwrites s p td f1 f2 :
  commit_ready s p td ->
  exists s1 s2,
    pax_set_flags K p td f1 s = Done tt s1 [EvProcLock p; EvProcUnlock p] /\
    pax_set_flags K p td f2 s1 = Done tt s2 [EvProcLock p; EvProcUnlock p] /\
    pax_set_flags K p td f2 s = Done tt s2 [EvProcLock p; EvProcUnlock p].
Proof.
  intros Hready. pose proof Hready as (_ & _ & pr & Hp & _).
  destruct (run_pax_set_flags K s p td f1 pr Hready Hp)
    as (s1 & Hrun1 & Hprocs1 & Hcur1 & Hin1 & Hout1).
  assert (Hready1 : commit_ready s1 p td)
    by (eapply commit_ready_after; eassumption).
  assert (Hp1 : ks_procs s1 !! p =
                Some {| p_pax := f1; p_threads := p_threads pr |}).
  { rewrite Hprocs1. apply lookup_insert_eq. }
  destruct (run_pax_set_flags K s1 p td f2 _ Hready1 Hp1)
    as (s2 & Hrun2 & Hprocs2 & Hcur2 & Hin2 & Hout2).
  destruct (run_pax_set_flags K s p td f2 pr Hready Hp)
    as (s2' & Hrun2' & Hprocs2' & Hcur2' & Hin2' & Hout2').
  simpl in *.
  assert (Heq : s2' = s2).
  { apply kstate_eq.
    - rewrite Hprocs2', Hprocs2, Hprocs1. rewrite insert_insert_eq.
      reflexivity.
    - apply map_eq. intros td0.
      destruct (In_dec N.eq_dec td0 (p_threads pr)) as [Hmem | Hnot].
      + destruct (Hin2' td0 Hmem) as (t0 & Ht0 & ->).
        destruct (Hin1 td0 Hmem) as (t0' & Ht0' & Hs1).
        destruct (Hin2 td0 Hmem) as (t1 & Ht1 & ->).
        rewrite Ht0 in Ht0'. inversion Ht0'; subst t0'.
        rewrite Hs1 in Ht1. inversion Ht1; subst t1. reflexivity.
      + rewrite (Hout2' td0 Hnot), (Hout2 td0 Hnot), (Hout1 td0 Hnot).
        reflexivity.
    - congruence. }
  subst s2'. exists s1, s2. auto.
Qed.


(** After a commit by a thread on the queue of its process, the thread
    reads the committed mask back. *)
Lemma run_get_td_after_commit s p td flags pr s' :
  commit_ready s p td ->
  ks_procs s !! p = Some pr ->
  In td (p_threads pr) ->
  queue_belongs s p ->
  ks_procs s' =
    <[p := {| p_pax := flags; p_threads := p_threads pr |}]> (ks_procs s) ->
  ks_curthread s' = ks_curthread s ->
  (forall td0, In td0 (p_threads pr) ->
     exists t0, ks_threads s !! td0 = Some t0 /\
       ks_threads s' !! td0 =
       Some {| td_proc := td_proc t0; td_pax := flags |}) ->
  pax_get_flags_td K td s' = Done flags s' [].
Proof.
  intros Hready Hp Hmem Hown Hprocs Hcur Hin.
  destruct Hready as (Hc & _ & _).
  destruct (Hin td Hmem) as (t & Ht & Hs').
  destruct (Hown pr Hp td Hmem) as (t' & Ht' & Hproc).
  rewrite Ht in Ht'. inversion Ht'; subst t'.
  pose proof (run_pax_get_flags_td K td s'
                {| td_proc := td_proc t; td_pax := flags |}) as Hget.
  simpl in Hget. apply Hget; [congruence | exact Hs' |].
  intros _. exists {| td_proc := td_proc t; td_pax := flags |},
                   {| p_pax := flags; p_threads := p_threads pr |}.
  split; [exact Hs' |]. simpl. rewrite Hproc. split.
  - rewrite Hprocs. apply lookup_insert_eq.
  - simpl. intros td0 Hmem0.
    destruct (Hin td0 Hmem0) as (t0 & Ht0 & Hs0).
    destruct (Hown pr Hp td0 Hmem0) as (t0' & Ht0' & Hproc0).
    rewrite Ht0 in Ht0'. inversion Ht0'; subst t0'.
    eexists. split; [exact Hs0 |]. simpl. auto.
Qed.

(** X9: what a commit stores is what the running thread reads back: after
    [pax_set_flags(p, td, flags)], with [td] on the queue of [p] and every
    thread on that queue belonging to [p], [pax_get_flags_td(td)] passes
    its assertions and returns [flags]. *)
Theorem pax_set_then_get_td s p td flags pr :
  commit_ready s p td ->
  ks_procs s !! p = Some pr ->
  In td (p_threads pr) ->
  queue_belongs s p ->
  exists s',
    pax_set_flags K p td flags s = Done tt s' [EvProcLock p; EvProcUnlock p] /\
    pax_get_flags_td K td s' = Done flags s' [].
Proof.
  intros Hready Hp Hmem Hown.
  destruct (run_pax_set_flags K s p td flags pr Hready Hp)
    as (s' & Hrun & Hprocs & Hcur & Hin & Hout).
  exists s'. split; [exact Hrun |].
  eapply run_get_td_after_commit; eassumption.
Qed.

(** A commit that returns has taken the lock of the process and left its
    mask in the process. *)
Lemma set_loop_done_procs flags l :
  forall s s' tr,
    foreach l (fun td0 => pax_set_flags_td td0 flags) s = Done tt s' tr ->
    ks_procs s' = ks_procs s.
Proof.
  induction l as [| x l IH]; intros s s' tr Hrun; simpl in Hrun.
  - cbv [mret kern_ret] in Hrun. inversion Hrun. reflexivity.
  - apply bind_done_inv in Hrun as ([] & s1 & tr1 & tr2 & Hx & Hrest & _).
    unfold pax_set_flags_td in Hx.
    apply bind_done_inv in Hx as (t & s2 & tr3 & tr4 & Ht & Hm & _).
    apply thread_at_done in Ht as (_ & -> & _).
    cbv [modify] in Hm. inversion Hm; subst s1.
    rewrite (IH _ _ _ Hrest). reflexivity.
Qed.

Lemma pax_set_flags_done s p td flags u s' tr :
  pax_set_flags K p td flags s = Done u s' tr ->
  In (EvProcLock p) tr /\
  exists pr', ks_procs s' !! p = Some pr' /\ p_pax pr' = flags.
Proof.
  intros Hrun. unfold pax_set_flags in Hrun.
  apply bind_done_inv in Hrun as ([] & s1 & tr1 & tr2 & Hk1 & Hrun & ->).
  apply bind_done_inv in Hrun as ([] & s2 & tr3 & tr4 & Hk2 & Hrun & ->).
  apply bind_done_inv in Hrun as ([] & s3 & tr5 & tr6 & Hlock & Hrun & ->).
  unfold PROC_LOCK in Hlock.
  apply bind_done_inv in Hlock as (pr0 & s4 & tr7 & tr8 & _ & Hemit & ->).
  cbv [emit] in Hemit. inversion Hemit; subst s3 tr8.
  split.
  { apply in_or_app. right. apply in_or_app. right.
    apply in_or_app. left. apply in_or_app. right. left. reflexivity. }
  apply bind_done_inv in Hrun as (pr & s5 & tr9 & tr10 & Hp & Hrun & _).
  apply proc_at_done in Hp as (Hp & -> & _).
  apply bind_done_inv in Hrun as ([] & s6 & tr11 & tr12 & Hm & Hrun & _).
  cbv [modify] in Hm. inversion Hm; subst s6.
  apply bind_done_inv in Hrun as ([] & s7 & tr13 & tr14 & Hloop & Hun & _).
  apply set_loop_done_procs in Hloop.
  unfold PROC_UNLOCK in Hun.
  apply bind_done_inv in Hun as (pr1 & s8 & tr15 & tr16 & Hp1 & Hemit' & _).
  apply proc_at_done in Hp1 as (_ & -> & _).
  cbv [emit] in Hemit'. inversion Hemit'; subst s'.
  exists {| p_pax := flags; p_threads := p_threads pr |}.
  split; [| reflexivity].
  rewrite Hloop. unfold store_proc. simpl. apply lookup_insert_eq.
Qed.

End StorageMore.

(** ** More on the request resolver *)

Section ResolverMore.

Variable K : kernel_config.
Variable H : pax_header.

(** X10: the resolver never makes up a request: its result is one of the
    two raw values or 0.  A channel that is not compiled in is not
    consulted (with one channel the result is that channel's value, with
    none it is 0), and with both channels the result is 0 only when both
    raw values are 0. *)
Theorem pax_get_requested_flags_sources imgp :
  let r := pax_get_requested_flags K H imgp in
  (r = req_acl_flags imgp \/ r = req_extattr_flags imgp \/ r = 0) /\
  (PAX_CONTROL_ACL K = false ->
   r = if PAX_CONTROL_EXTATTR K then req_extattr_flags imgp else 0) /\
  (PAX_CONTROL_EXTATTR K = false ->
   r = if PAX_CONTROL_ACL K then req_acl_flags imgp else 0) /\
  (PAX_CONTROL_ACL K = true -> PAX_CONTROL_EXTATTR K = true ->
   (r = 0 <-> req_acl_flags imgp = 0 /\ req_extattr_flags imgp = 0)).
Proof.
  intros r. subst r. unfold pax_get_requested_flags.
  set (acl := req_acl_flags imgp). set (ext := req_extattr_flags imgp).
  destruct (PAX_CONTROL_ACL K), (PAX_CONTROL_EXTATTR K); simpl.
  - assert (Hr : (if Z.eqb
                        (if negb (Z.eqb (Z.land acl (PAX_NOTE_PREFER_ACL H)) 0)
                         then acl else ext) 0 && negb (Z.eqb acl 0)
                  then acl
                  else if negb (Z.eqb (Z.land acl (PAX_NOTE_PREFER_ACL H)) 0)
                       then acl else ext) =
                 if negb (Z.eqb (Z.land acl (PAX_NOTE_PREFER_ACL H)) 0)
                 then acl
                 else if Z.eqb ext 0 then acl else ext).
    { destruct (Z.eqb_spec (Z.land acl (PAX_NOTE_PREFER_ACL H)) 0); simpl;
        destruct (Z.eqb_spec acl 0), (Z.eqb_spec ext 0); simpl; congruence. }
    rewrite Hr. clear Hr.
    split; [| split; [discriminate | split; [discriminate |]]].
    + destruct (negb _); [auto |]. destruct (Z.eqb ext 0); auto.
    + intros _ _.
      destruct (Z.eqb_spec (Z.land acl (PAX_NOTE_PREFER_ACL H)) 0)
        as [Hm | Hm]; simpl.
      * destruct (Z.eqb_spec ext 0); split; intros; try tauto; lia.
      * split; [| tauto]. intros Ha. exfalso. apply Hm.
        rewrite Ha. apply Z.land_0_l.
  - destruct (Z.eqb_spec acl 0) as [Ha | Ha]; simpl;
      repeat split; intros; auto; try discriminate; try congruence.
  - destruct (Z.eqb_spec ext 0) as [He | He]; simpl;
      repeat split; intros; auto; try discriminate; try congruence.
  - repeat split; intros; auto; discriminate.
Qed.

End ResolverMore.

(** ** More on image activation *)

Section ActivationMore.

Variable K : kernel_config.
Variable H : pax_header.
Variable E : pax_engines.

(** A run of [pax_elf] that returns either stopped at the prefer-ACL test
    or is a run of its activation body. *)
Lemma pax_elf_done td imgp s rc s' tr :
  pax_elf K H E td imgp s = Done rc s' tr ->
  (rc = 0 /\ s' = s /\ tr = []) \/
  pax_elf_activation K H E td imgp s = Done rc s' tr.
Proof.
  unfold pax_elf.
  destruct (PAX_CONTROL_ACL K && PAX_CONTROL_ACL_OVERRIDE_SUPPORT K);
    [| auto].
  intros Hrun.
  apply bind_done_inv in Hrun as (f & s1 & tr1 & tr2 & Hget & Hrest & ->).
  destruct (pax_get_flags_td_done K td s f s1 tr1 Hget) as (-> & -> & _).
  destruct (Z.eqb (Z.land f (PAX_NOTE_PREFER_ACL H)) (PAX_NOTE_PREFER_ACL H)).
  - cbv [mret kern_ret] in Hrest. inversion Hrest; subst. auto.
  - auto.
Qed.

(** A run of the activation body that returns either rejected the image,
    leaving the state alone, or passed the four checks and committed. *)
Lemma pax_elf_activation_done td imgp s rc s' tr :
  pax_elf_activation K H E td imgp s = Done rc s' tr ->
  (rc = ENOEXEC /\ s' = s /\ validation_fails K H E imgp td /\
   ~ In (EvProcLock (imgp_proc imgp)) tr) \/
  (rc = 0 /\ ~ validation_fails K H E imgp td /\
   exists tr_commit,
     pax_set_flags K (imgp_proc imgp) td (committed_flags K H E imgp td) s =
       Done tt s' tr_commit /\
     tr = (hook_calls K E imgp td (pax_get_requested_flags K H imgp) ++
           [EvKtr "%s : flags = %x mode = %x"]) ++ tr_commit ++
          (if negb (Z.eqb (pax_get_requested_flags K H imgp) 0)
           then [EvLogKernel (PAX_LOG_DEFAULT H)
                   "the process started with non-default hardening settings"
                   None]
           else [])).
Proof.
  rewrite run_pax_elf_activation. cbv zeta. unfold validation_fails.
  set (mode := pax_get_requested_flags K H imgp).
  set (flags := aggregated_flags K H E imgp td mode).
  assert (Hnolock : forall evs,
            ~ In (EvProcLock (imgp_proc imgp))
                ((hook_calls K E imgp td mode ++
                  [EvKtr "%s : flags = %x mode = %x"]) ++
                 [EvLogKernel (PAX_LOG_DEFAULT H) evs.1 (Some flags);
                  EvLogUser evs.2 (Some flags)])).
  { intros evs Hin.
    apply in_app_or in Hin as [Hin | Hin].
    - apply in_app_or in Hin as [Hin | Hin].
      + pose proof (hook_calls_no_lock K E td imgp mode) as Hall.
        rewrite List.Forall_forall in Hall. apply Hall in Hin. discriminate.
      + destruct Hin as [Hin | []]. discriminate.
    - destruct Hin as [Hin | [Hin | []]]; discriminate. }
  destruct (Z.eqb_spec (pax_validate_flags H mode) 0) as [Hv1 | Hv1]; simpl.
  2:{ intros Hd. inversion Hd; subst. left.
      repeat split; auto. intros [Hin | [Hin | []]]; discriminate. }
  destruct (Z.eqb_spec (pax_check_conflicting_modes H mode) 0)
    as [Hc1 | Hc1]; simpl.
  2:{ intros Hd. inversion Hd; subst. left.
      repeat split; auto. intros [Hin | [Hin | []]]; discriminate. }
  destruct (Z.eqb_spec (pax_validate_flags H flags) 0) as [Hv2 | Hv2]; simpl.
  2:{ intros Hd. inversion Hd; subst. left. repeat split; auto.
      apply (Hnolock ("unknown paxflags after the setup: %x",
                      "unknown paxflags after the setup: %x\n")). }
  destruct (Z.eqb_spec (pax_check_conflicting_modes H flags) 0)
    as [Hc2 | Hc2]; simpl.
  2:{ intros Hd. inversion Hd; subst. left. repeat split; auto.
      apply (Hnolock ("inconsistent paxflags after the setup: %x",
                      "inconsistent paxflags after the setup: %x\n")). }
  destruct (pax_set_flags K (imgp_proc imgp) td
              (committed_flags K H E imgp td) s) as [[] s2 tr2 | msg tr2];
    [| discriminate].
  intros Hd. inversion Hd; subst. right.
  split; [reflexivity |]. split; [tauto |].
  exists tr2. split; reflexivity.
Qed.

(** X11: when [pax_elf] returns, it returns 0 or ENOEXEC; when it returns
    ENOEXEC the kernel state is the one it started from; and the state can
    differ from the initial one only if the lock of the image's process
    was taken, that is, only through a commit. *)
Theorem pax_elf_outcomes td imgp s rc s' tr :
  pax_elf K H E td imgp s = Done rc s' tr ->
  (rc = 0 \/ rc = ENOEXEC) /\
  (rc = ENOEXEC -> s' = s) /\
  (~ In (EvProcLock (imgp_proc imgp)) tr -> s' = s).
Proof.
  intros Hrun.
  destruct (pax_elf_done td imgp s rc s' tr Hrun)
    as [(-> & -> & ->) | Hact].
  { auto. }
  destruct (pax_elf_activation_done td imgp s rc s' tr Hact)
    as [(-> & -> & _ & _) | (-> & _ & trc & Hset & ->)].
  { auto. }
  split; [auto |]. split; [discriminate |].
  intros Hno. exfalso. apply Hno.
  apply (pax_set_flags_done K) in Hset as (Hlock & _).
  apply in_or_app. right. apply in_or_app. left. exact Hlock.
Qed.

Lemma validate_zero_bits m :
  pax_validate_flags H m = 0 <->
  forall i, 0 <= i ->
    Z.testbit m i && Z.testbit (pax_flag_not H (PAX_NOTE_ALL H)) i = false.
Proof. rewrite pax_validate_flags_zero. apply land_zero_bits. Qed.

Lemma conflict_zero_bits m :
  pax_check_conflicting_modes H m = 0 <->
  forall i, 0 <= i ->
    (Z.testbit m i && Z.testbit (PAX_NOTE_ALL_ENABLED H) i) &&
    (Z.testbit m (i + 1) && Z.testbit (PAX_NOTE_ALL_DISABLED H) (i + 1)) =
    false.
Proof.
  rewrite pax_check_conflicting_modes_zero, land_zero_bits.
  split; intros Hb i Hi; specialize (Hb i Hi);
    rewrite !Z.land_spec, Z.shiftr_spec, Z.land_spec in * by assumption;
    exact Hb.
Qed.

(** A bit of the committed mask comes from the aggregated flags or from
    the marker of the requested mode. *)
Lemma committed_flags_bit td imgp i :
  0 <= i ->
  Z.testbit (committed_flags K H E imgp td) i = true ->
  Z.testbit
    (aggregated_flags K H E imgp td (pax_get_requested_flags K H imgp)) i =
    true \/
  (Z.testbit (PAX_NOTE_PREFER_ACL H) i = true /\
   Z.testbit (pax_get_requested_flags K H imgp) i = true).
Proof.
  intros Hi. unfold committed_flags.
  set (mode := pax_get_requested_flags K H imgp).
  set (flags := aggregated_flags K H E imgp td mode).
  destruct (acl_override K); [| auto].
  destruct (prefers_acl H mode) eqn:Hmark.
  - rewrite testbit_pax_flag_wrap, Z.lor_spec by assumption.
    intros Hbit.
    assert (Hor : Z.testbit flags i || Z.testbit (PAX_NOTE_PREFER_ACL H) i
                  = true).
    { destruct (Z.ltb (pax_flag_bits H) 0); [assumption |].
      apply andb_true_iff in Hbit. tauto. }
    apply orb_true_iff in Hor as [Hf | HP]; [auto |].
    right. split; [assumption |].
    unfold prefers_acl in Hmark. apply Z.eqb_eq in Hmark.
    rewrite <- Hmark, Z.land_spec in HP.
    apply andb_true_iff in HP. tauto.
  - rewrite Z.land_spec. intros Hbit.
    apply andb_true_iff in Hbit. tauto.
Qed.

(** X12: a mask that [pax_elf] commits has no bit outside PAX_NOTE_ALL:
    after any activation that committed, the mask stored in the image's
    process passes [pax_validate_flags]. *)
Theorem pax_elf_commits_known_bits td imgp s s' tr :
  pax_elf K H E td imgp s = Done 0 s' tr ->
  In (EvProcLock (imgp_proc imgp)) tr ->
  exists pr',
    ks_procs s' !! imgp_proc imgp = Some pr' /\
    p_pax pr' = committed_flags K H E imgp td /\
    pax_validate_flags H (p_pax pr') = 0.
Proof.
  intros Hrun Hlock.
  destruct (pax_elf_done td imgp s 0 s' tr Hrun)
    as [(_ & _ & ->) | Hact]; [destruct Hlock |].
  destruct (pax_elf_activation_done td imgp s 0 s' tr Hact)
    as [(Hrc & _) | (_ & Hok & trc & Hset & _)]; [discriminate |].
  apply (pax_set_flags_done K) in Hset as (_ & pr' & Hp' & Hpax).
  exists pr'. split; [exact Hp' |]. split; [exact Hpax |]. rewrite Hpax.
  unfold validation_fails in Hok. cbv zeta in Hok.
  set (mode := pax_get_requested_flags K H imgp) in *.
  set (flags := aggregated_flags K H E imgp td mode) in *.
  assert (Hm : pax_validate_flags H mode = 0).
  { destruct (pax_validate_flags_cases H mode); [assumption | lia]. }
  assert (Hf : pax_validate_flags H flags = 0).
  { destruct (pax_validate_flags_cases H flags); [assumption | lia]. }
  rewrite validate_zero_bits in *. intros i Hi.
  destruct (Z.testbit (committed_flags K H E imgp td) i) eqn:Hbit;
    [| reflexivity].
  simpl.
  destruct (committed_flags_bit td imgp i Hi Hbit) as [Hb | [_ Hb]];
    fold mode in Hb; fold flags in Hb.
  - specialize (Hf i Hi). rewrite Hb in Hf. exact Hf.
  - specialize (Hm i Hi). rewrite Hb in Hm. exact Hm.
Qed.

(** X13: when the prefer-ACL marker shares no bit with the enable and
    disable masks, a mask that [pax_elf] commits has no conflicting pair:
    after any activation that committed, the mask stored in the image's
    process passes [pax_check_conflicting_modes]. *)
Theorem pax_elf_commits_no_conflict td imgp s s' tr :
  Z.land (PAX_NOTE_PREFER_ACL H) (PAX_NOTE_ALL_ENABLED H) = 0 ->
  Z.land (PAX_NOTE_PREFER_ACL H) (PAX_NOTE_ALL_DISABLED H) = 0 ->
  pax_elf K H E td imgp s = Done 0 s' tr ->
  In (EvProcLock (imgp_proc imgp)) tr ->
  exists pr',
    ks_procs s' !! imgp_proc imgp = Some pr' /\
    p_pax pr' = committed_flags K H E imgp td /\
    pax_check_conflicting_modes H (p_pax pr') = 0.
Proof.
  intros HPE HPD Hrun Hlock.
  destruct (pax_elf_done td imgp s 0 s' tr Hrun)
    as [(_ & _ & ->) | Hact]; [destruct Hlock |].
  destruct (pax_elf_activation_done td imgp s 0 s' tr Hact)
    as [(Hrc & _) | (_ & Hok & trc & Hset & _)]; [discriminate |].
  apply (pax_set_flags_done K) in Hset as (_ & pr' & Hp' & Hpax).
  exists pr'. split; [exact Hp' |]. split; [exact Hpax |]. rewrite Hpax.
  unfold validation_fails in Hok. cbv zeta in Hok.
  set (mode := pax_get_requested_flags K H imgp) in *.
  set (flags := aggregated_flags K H E imgp td mode) in *.
  assert (Hf : pax_check_conflicting_modes H flags = 0).
  { destruct (pax_check_conflicting_modes_cases H flags); [assumption | lia]. }
  rewrite land_zero_bits in HPE, HPD.
  rewrite conflict_zero_bits in *. intros i Hi.
  specialize (Hf i Hi).
  destruct (Z.testbit (committed_flags K H E imgp td) i) eqn:Hb0;
    [| reflexivity].
  destruct (Z.testbit (committed_flags K H E imgp td) (i + 1)) eqn:Hb1;
    [| rewrite andb_false_r; reflexivity].
  destruct (committed_flags_bit td imgp i Hi Hb0) as [Hx | [Hx _]];
    fold mode in Hx; fold flags in Hx;
    destruct (committed_flags_bit td imgp (i + 1) ltac:(lia) Hb1)
      as [Hy | [Hy _]];
    fold mode in Hy; fold flags in Hy.
  - rewrite Hx, Hy in Hf. exact Hf.
  - specialize (HPD (i + 1) ltac:(lia)). rewrite Hy in HPD. simpl in *.
    rewrite HPD, andb_false_r. reflexivity.
  - specialize (HPE i Hi). rewrite Hx in HPE. simpl in *.
    rewrite HPE. reflexivity.
  - specialize (HPE i Hi). rewrite Hx in HPE. simpl in *.
    rewrite HPE. reflexivity.
Qed.

(** X14: a requested mode that fails a validator is rejected before any
    mitigation engine is consulted: the trace is exactly the kernel and
    user log lines for the mode, and unknown bits are reported in
    preference to a conflicting pair. *)
Theorem pax_elf_rejects_mode_early td imgp s :
  not_short_circuited K H td s ->
  let mode := pax_get_requested_flags K H imgp in
  pax_validate_flags H mode <> 0 \/ pax_check_conflicting_modes H mode <> 0 ->
  pax_elf K H E td imgp s =
  if negb (Z.eqb (pax_validate_flags H mode) 0) then
    Done ENOEXEC s
      [EvLogKernel (PAX_LOG_DEFAULT H) "unknown paxflags: %x" (Some mode);
       EvLogUser "unknown paxflags: %x\n" (Some mode)]
  else
    Done ENOEXEC s
      [EvLogKernel (PAX_LOG_DEFAULT H) "inconsistent paxflags: %x"
         (Some mode);
       EvLogUser "inconsistent paxflags: %x\n" (Some mode)].
Proof.
  intros Hpast mode Hbad.
  rewrite (pax_elf_past_test K H E td imgp s Hpast), run_pax_elf_activation.
  cbv zeta. fold mode.
  destruct (Z.eqb_spec (pax_validate_flags H mode) 0) as [Hv | Hv]; simpl;
    [| reflexivity].
  destruct (Z.eqb_spec (pax_check_conflicting_modes H mode) 0) as [Hc | Hc];
    simpl; [| reflexivity].
  exfalso. destruct Hbad; contradiction.
Qed.

(** X15: the trace of an activation that commits: one call per compiled-in
    hook, in order, then the trace point, the lock and unlock of the
    process and, exactly when the requested mode is not 0, the kernel log
    line about non-default settings; nothing is written to the user. *)
Theorem pax_elf_commit_trace td imgp s :
  not_short_circuited K H td s ->
  ~ validation_fails K H E imgp td ->
  commit_ready s (imgp_proc imgp) td ->
  let mode := pax_get_requested_flags K H imgp in
  exists s',
    pax_elf K H E td imgp s =
    Done 0 s'
      (hook_calls K E imgp td mode ++
       [EvKtr "%s : flags = %x mode = %x";
        EvProcLock (imgp_proc imgp); EvProcUnlock (imgp_proc imgp)] ++
       if negb (Z.eqb mode 0)
       then [EvLogKernel (PAX_LOG_DEFAULT H)
               "the process started with non-default hardening settings" None]
       else []).
Proof.
  intros Hpast Hok Hready mode.
  rewrite (pax_elf_past_test K H E td imgp s Hpast), run_pax_elf_activation.
  unfold validation_fails in Hok. cbv zeta in *. fold mode in Hok |- *.
  set (flags := aggregated_flags K H E imgp td mode) in *.
  destruct (Z.eqb_spec (pax_validate_flags H mode) 0); [| tauto].
  destruct (Z.eqb_spec (pax_check_conflicting_modes H mode) 0); [| tauto].
  destruct (Z.eqb_spec (pax_validate_flags H flags) 0); [| tauto].
  destruct (Z.eqb_spec (pax_check_conflicting_modes H flags) 0); [| tauto].
  simpl.
  pose proof Hready as (_ & _ & pr & Hp & _).
  destruct (run_pax_set_flags K s (imgp_proc imgp) td
              (committed_flags K H E imgp td) pr Hready Hp)
    as (s' & Hrun & _).
  rewrite Hrun. exists s'. rewrite <- !app_assoc. reflexivity.
Qed.

(** X16: the prefer-ACL pin is sticky.  With ACL override support compiled
    in, once an activation whose requested mode carries the marker has
    committed, every later call of [pax_elf] by that thread, for any image
    whatever, returns 0 and changes nothing. *)
Theorem pax_elf_pin_is_sticky td imgp s pr :
  acl_override K = true ->
  0 < PAX_NOTE_PREFER_ACL H < 2 ^ pax_flag_bits H ->
  not_short_circuited K H td s ->
  ~ validation_fails K H E imgp td ->
  commit_ready s (imgp_proc imgp) td ->
  ks_procs s !! imgp_proc imgp = Some pr ->
  In td (p_threads pr) ->
  queue_belongs s (imgp_proc imgp) ->
  prefers_acl H (pax_get_requested_flags K H imgp) = true ->
  exists s' tr,
    pax_elf K H E td imgp s = Done 0 s' tr /\
    forall imgp', pax_elf K H E td imgp' s' = Done 0 s' [].
Proof.
  intros Hov HP Hpast Hok Hready Hp Hmem Hown Hmark.
  rewrite (pax_elf_past_test K H E td imgp s Hpast), run_pax_elf_activation.
  unfold validation_fails in Hok. cbv zeta in *.
  set (mode := pax_get_requested_flags K H imgp) in *.
  set (flags := aggregated_flags K H E imgp td mode) in *.
  destruct (Z.eqb_spec (pax_validate_flags H mode) 0); [| tauto].
  destruct (Z.eqb_spec (pax_check_conflicting_modes H mode) 0); [| tauto].
  destruct (Z.eqb_spec (pax_validate_flags H flags) 0); [| tauto].
  destruct (Z.eqb_spec (pax_check_conflicting_modes H flags) 0); [| tauto].
  simpl.
  destruct (run_pax_set_flags K s (imgp_proc imgp) td
              (committed_flags K H E imgp td) pr Hready Hp)
    as (s' & Hrun & Hprocs & Hcur & Hin & Hout).
  rewrite Hrun. eexists _, _. split; [reflexivity |].
  intros imgp'.
  apply (run_pax_elf_marked K H E td imgp' s'
           (committed_flags K H E imgp td) Hov).
  - eapply run_get_td_after_commit; eassumption.
  - rewrite (committed_flags_marker K H E td imgp Hov HP). exact Hmark.
Qed.

End ActivationMore.

(** ** More on the jail policy initializer *)

Section PrisonMore.

Variable K : kernel_config.
Variables P O : Type.
Variable PE : prison_engines P O.
Variable prison0 : N.

(** X17: [pax_init_prison] is the iteration over the compiled-in
    initializers: each one runs on the prison memory its predecessor left,
    the first failure ends the iteration, and the memory returned is the
    one the last initializer called left behind; nothing an earlier
    initializer did is undone on failure.  The KASSERT then turns a failure
    for prison0 into a panic. *)
Theorem pax_init_prison_iterates pr opts s :
  pax_init_prison K P O PE prison0 pr opts s =
  let '(ok, s', calls) :=
    run_initializers P O (compiled_initializers K P O PE) pr opts s in
  let tr := EvKtr "%s: Setting prison %s PaX variables\n" :: calls in
  if INVARIANTS K && N.eqb pr prison0 && negb ok
  then Panic "Unexpected error during prison0 initialization." tr
  else Done ok s' tr.
Proof.
  unfold pax_init_prison, compiled_initializers.
  destruct PE as [aslr hardening noexec segvguard aslr32 log].
  cbv [mbind kern_bind mret kern_ret emit extern KASSERT
       pax_aslr_init_prison pax_hardening_init_prison pax_noexec_init_prison
       pax_segvguard_init_prison pax_aslr_init_prison32 pax_log_init_prison].
  simpl.
  repeat match goal with
  | Hx : Z.eqb ?rc 0 = _ |- context [Z.eqb ?rc 0] => rewrite Hx; simpl
  | |- context [Z.eqb ?rc 0] => destruct (Z.eqb rc 0) eqn:?; simpl
  | |- context [COMPAT_FREEBSD32 K] => destruct (COMPAT_FREEBSD32 K); simpl
  | |- context [?f pr opts ?s0] =>
      is_var f; destruct (f pr opts s0) as [? ?]; simpl
  end.
  all: destruct (INVARIANTS K); simpl; try reflexivity.
  all: destruct (N.eqb pr prison0); simpl; reflexivity.
Qed.

End PrisonMore.

(** ** More on feature states *)

Section FeatureStateMore.

Variable K : kernel_config.
Variable H : pax_header.

(** X18: validation is idempotent: the state a validator leaves behind is
    accepted unchanged by a second validation, whatever the first one was
    given. *)
Theorem pax_feature_validate_state_idempotent state :
  (let state' := snd (pax_feature_validate_state H state) in
   pax_feature_validate_state H state' = (true, state')) /\
  (let state' := snd (pax_feature_simple_validate_state H state) in
   pax_feature_simple_validate_state H state' = (true, state')).
Proof.
  split; cbv zeta.
  - apply pax_feature_validate_state_legal.
    unfold pax_feature_validate_state.
    destruct (_ || _) eqn:Hb; simpl.
    + apply pax_feature_validate_state_legal.
      unfold pax_feature_validate_state. rewrite Hb. reflexivity.
    + unfold feature_states. simpl. auto.
  - apply pax_feature_simple_validate_state_legal.
    unfold pax_feature_simple_validate_state.
    destruct (_ || _) eqn:Hb; simpl.
    + apply pax_feature_simple_validate_state_legal.
      unfold pax_feature_simple_validate_state. rewrite Hb. reflexivity.
    + unfold simple_feature_states. simpl. auto.
Qed.

Variable O : Type.
Variable vfs_copyopt : O -> string -> Z * Z.

(** X19: handling a jail parameter never installs an illegal state: a
    legal status stays legal; the status changes only when jail support is
    compiled in and vfs_copyopt delivered, without error, a legal value,
    which is then the new status and the return value is 0; and a legal
    value delivered without error is always taken. *)
Theorem pax_handle_prison_param_keeps_legal opts mib status :
  let r := pax_handle_prison_param K H O vfs_copyopt opts mib status in
  (In status (feature_states H) -> In (snd r) (feature_states H)) /\
  (snd r <> status ->
     fst r = 0 /\ PAX_JAIL_SUPPORT K = true /\
     vfs_copyopt opts mib = (0, snd r) /\ In (snd r) (feature_states H)) /\
  (forall v, PAX_JAIL_SUPPORT K = true -> vfs_copyopt opts mib = (0, v) ->
     In v (feature_states H) -> r = (0, v)).
Proof.
  intros r. subst r. unfold pax_handle_prison_param.
  destruct (PAX_JAIL_SUPPORT K).
  2:{ simpl. split; [auto |]. split; [intros Hne; contradiction |].
      intros v Hj. discriminate. }
  destruct (vfs_copyopt opts mib) as [error new_state].
  destruct (Z.eqb_spec error ENOENT) as [-> | Hne].
  { simpl. split; [auto |]. split; [intros Hx; contradiction |].
    intros v _ Hcopy. inversion Hcopy. }
  destruct (Z.eqb_spec error 0) as [-> | Hnz].
  - pose proof (pax_feature_validate_state_legal H new_state) as Hlegal.
    destruct (pax_feature_validate_state H new_state) as [valid st] eqn:Hv.
    destruct valid; simpl.
    + assert (Hst : st = new_state /\ In new_state (feature_states H)).
      { unfold pax_feature_validate_state in Hv.
        destruct (_ || _); inversion Hv; subst. split; [reflexivity |].
        apply Hlegal. reflexivity. }
      destruct Hst as [-> Hin].
      split; [auto |]. split; [auto |].
      intros v _ Hcopy _. inversion Hcopy. reflexivity.
    + split; [auto |]. split; [intros Hx; contradiction |].
      intros v _ Hcopy Hin. inversion Hcopy; subst v.
      apply Hlegal in Hin. discriminate.
  - simpl. split; [auto |]. split; [intros Hx; contradiction |].
    intros v _ Hcopy. inversion Hcopy. contradiction.
Qed.

End FeatureStateMore.

(** ** The status name tables *)

Section StatusTables.

Lemma designated_step_same (arr : list (option string)) (d : Z * string) :
  <[Z.to_nat d.1 := Some d.2]>
    (arr ++ replicate (Datatypes.S (Z.to_nat d.1) - length arr) None)
  !! Z.to_nat d.1 = Some (Some d.2).
Proof.
  apply list_lookup_insert_eq.
  rewrite length_app, length_replicate. lia.
Qed.

Lemma designated_step_other (arr : list (option string)) (d : Z * string)
    (m : nat) x :
  m <> Z.to_nat d.1 ->
  arr !! m = Some x ->
  <[Z.to_nat d.1 := Some d.2]>
    (arr ++ replicate (Datatypes.S (Z.to_nat d.1) - length arr) None)
  !! m = Some x.
Proof.
  intros Hne Hm.
  rewrite list_lookup_insert_ne by congruence.
  apply lookup_app_l_Some. exact Hm.
Qed.

Lemma table_entry_nonneg table state :
  0 <= state -> table_entry table state = table !! Z.to_nat state.
Proof.
  intros Hs. unfold table_entry.
  destruct (Z.ltb_spec state 0); [lia | reflexivity].
Qed.

Variable H : pax_header.

(** X20: when the feature-state enumerators are distinct and not negative,
    [pax_status_str] names each of the four states and
    [pax_status_simple_str] each of the two; so the state a validator
    leaves behind always indexes its table within bounds, at a non-null
    name. *)
Theorem pax_status_str_covers_states :
  Forall (fun x => 0 <= x) (feature_states H) ->
  NoDup (feature_states H) ->
  Forall (fun x => 0 <= x) (simple_feature_states H) ->
  NoDup (simple_feature_states H) ->
  (table_entry (pax_status_str H) (PAX_FEATURE_DISABLED H) =
     Some (Some "disabled") /\
   table_entry (pax_status_str H) (PAX_FEATURE_OPTIN H) =
     Some (Some "opt-in") /\
   table_entry (pax_status_str H) (PAX_FEATURE_OPTOUT H) =
     Some (Some "opt-out") /\
   table_entry (pax_status_str H) (PAX_FEATURE_FORCE_ENABLED H) =
     Some (Some "force enabled")) /\
  (table_entry (pax_status_simple_str H) (PAX_FEATURE_SIMPLE_DISABLED H) =
     Some (Some "disabled") /\
   table_entry (pax_status_simple_str H) (PAX_FEATURE_SIMPLE_ENABLED H) =
     Some (Some "enabled")) /\
  (forall state, exists name,
     table_entry (pax_status_str H)
       (snd (pax_feature_validate_state H state)) = Some (Some name)) /\
  (forall state, exists name,
     table_entry (pax_status_simple_str H)
       (snd (pax_feature_simple_validate_state H state)) = Some (Some name)).
Proof.
  unfold feature_states, simple_feature_states.
  intros Hpos Hnd Hpos' Hnd'.
  repeat match goal with
  | Hx : Forall _ (_ :: _) |- _ => inversion Hx; clear Hx; subst
  | Hx : NoDup (_ :: _) |- _ => inversion Hx; clear Hx; subst
  end.
  repeat match goal with
  | Hx : ~ _ ∈ _ |- _ => rewrite list_elem_of_In in Hx; simpl in Hx
  | Hx : ~ In _ _ |- _ => simpl in Hx
  end.
  assert (Hfour :
    table_entry (pax_status_str H) (PAX_FEATURE_DISABLED H) =
      Some (Some "disabled") /\
    table_entry (pax_status_str H) (PAX_FEATURE_OPTIN H) =
      Some (Some "opt-in") /\
    table_entry (pax_status_str H) (PAX_FEATURE_OPTOUT H) =
      Some (Some "opt-out") /\
    table_entry (pax_status_str H) (PAX_FEATURE_FORCE_ENABLED H) =
      Some (Some "force enabled")).
  { rewrite !table_entry_nonneg by assumption.
    unfold pax_status_str, designated. cbv beta iota delta [fold_left].
    repeat split;
      repeat first
        [ apply (designated_step_same _ (_, _))
        | apply (designated_step_other _ (_, _)); [simpl; lia |] ]. }
  assert (Htwo :
    table_entry (pax_status_simple_str H) (PAX_FEATURE_SIMPLE_DISABLED H) =
      Some (Some "disabled") /\
    table_entry (pax_status_simple_str H) (PAX_FEATURE_SIMPLE_ENABLED H) =
      Some (Some "enabled")).
  { rewrite !table_entry_nonneg by assumption.
    unfold pax_status_simple_str, designated.
    cbv beta iota delta [fold_left].
    repeat split;
      repeat first
        [ apply (designated_step_same _ (_, _))
        | apply (designated_step_other _ (_, _)); [simpl; lia |] ]. }
  split; [exact Hfour |]. split; [exact Htwo |]. split.
  - intros state.
    pose proof (pax_feature_validate_state_legal H
                  (snd (pax_feature_validate_state H state))) as Hl.
    assert (Hin : In (snd (pax_feature_validate_state H state))
                     (feature_states H)).
    { unfold pax_feature_validate_state. destruct (_ || _) eqn:Hb; simpl.
      - apply pax_feature_validate_state_legal.
        unfold pax_feature_validate_state. rewrite Hb. reflexivity.
      - unfold feature_states. simpl. auto. }
    unfold feature_states in Hin. simpl in Hin.
    destruct Hfour as (Ha & Hb & Hc & Hd).
    destruct Hin as [<- | [<- | [<- | [<- | []]]]]; eauto.
  - intros state.
    assert (Hin : In (snd (pax_feature_simple_validate_state H state))
                     (simple_feature_states H)).
    { unfold pax_feature_simple_validate_state.
      destruct (_ || _) eqn:Hb; simpl.
      - apply pax_feature_simple_validate_state_legal.
        unfold pax_feature_simple_validate_state. rewrite Hb. reflexivity.
      - unfold simple_feature_states. simpl. auto. }
    unfold simple_feature_states in Hin. simpl in Hin.
    destruct Htwo as (Ha & Hb).
    destruct Hin as [<- | [<- | []]]; eauto.
Qed.

End StatusTables.

(** * The model at work on the sample kernel *)

Example validate_known_mask :
  pax_validate_flags sample_header 0x80000595 = 0.
Proof. reflexivity. Qed.

Example validate_unknown_bit :
  pax_validate_flags sample_header 0x10000040 = 1.
Proof. reflexivity. Qed.

Example conflict_aslr_pair :
  pax_check_conflicting_modes sample_header 0xc0 = 1.
Proof. reflexivity. Qed.

Example no_conflict_between_neighbours :
  (* NOPAGEEXEC (bit 1) and MPROTECT (bit 2) are adjacent bits of two
     different pairs *)
  pax_check_conflicting_modes sample_header 0x6 = 0.
Proof. reflexivity. Qed.

Example resolver_falls_back_to_acl :
  pax_get_requested_flags (sample_config true) sample_header
    (sample_image 0x80 0) = 0x80.
Proof. reflexivity. Qed.

Example activation_commits_defaults :
  pax_elf (sample_config true) sample_header sample_engines 10
    (sample_image 0 0) (sample_state 0) =
  Done 0 (sample_state 0x555)
    [EvCall "pax_aslr_setup_flags" 0x40;
     EvCall "pax_disallow_map32bit_setup_flags" 0x400;
     EvCall "pax_noexec_setup_flags" 0x5;
     EvCall "pax_segvguard_setup_flags" 0x10;
     EvCall "pax_hardening_setup_flags" 0x100;
     EvKtr "%s : flags = %x mode = %x";
     EvProcLock 1; EvProcUnlock 1].
Proof. vm_compute. reflexivity. Qed.

Example activation_rejects_conflict :
  pax_elf (sample_config true) sample_header sample_engines 10
    (sample_image 0 0xc0) (sample_state 0x555) =
  Done ENOEXEC (sample_state 0x555)
    [EvLogKernel 0 "inconsistent paxflags: %x" (Some 0xc0);
     EvLogUser "inconsistent paxflags: %x\n" (Some 0xc0)].
Proof. vm_compute. reflexivity. Qed.

Example set_flags_by_another_thread_panics :
  pax_set_flags (sample_config true) 1 11 0x555 (sample_state 0) =
  Panic "%s: td != curthread" [].
Proof. vm_compute. reflexivity. Qed.

Example child_prison_bad_parameter :
  pax_init_prison (sample_config true) _ _ sample_prison_engines 0 7
    [("hardening.pax.pageexec.status", 9)] ∅ =
  Done false ∅
    [EvKtr "%s: Setting prison %s PaX variables\n";
     EvCall "pax_aslr_init_prison" 0;
     EvCall "pax_hardening_init_prison" 0;
     EvCall "pax_noexec_init_prison" 22].
Proof. vm_compute. reflexivity. Qed.

Example prison0_bad_parameter_panics :
  pax_init_prison (sample_config true) _ _ sample_prison_engines 0 0
    [("hardening.pax.pageexec.status", 9)] ∅ =
  Panic "Unexpected error during prison0 initialization."
    [EvKtr "%s: Setting prison %s PaX variables\n";
     EvCall "pax_aslr_init_prison" 0;
     EvCall "pax_hardening_init_prison" 0;
     EvCall "pax_noexec_init_prison" 22].
Proof. vm_compute. reflexivity. Qed.

Example prison_param_out_of_range_is_dropped :
  pax_handle_prison_param (sample_config true) sample_header _
    sample_copyopt [("hardening.pax.aslr.status", 7)]
    "hardening.pax.aslr.status" 2 = (0, 2).
Proof. reflexivity. Qed.

Example prison_param_in_range_is_taken :
  pax_handle_prison_param (sample_config true) sample_header _
    sample_copyopt [("hardening.pax.aslr.status", 3)]
    "hardening.pax.aslr.status" 2 = (0, 3).
Proof. reflexivity. Qed.

Lemma sample_state_debug_checks pax : debug_checks_hold (sample_state pax) 10.
Proof.
  exists {| td_proc := 1; td_pax := pax |},
         {| p_pax := pax; p_threads := [10%N; 11%N] |}.
  split; [reflexivity |]. split; [reflexivity |].
  intros td0 [<- | [<- | []]];
    exists {| td_proc := 1; td_pax := pax |}; repeat split; reflexivity.
Defined.

(** C1, as first stated, fails: with ACL override support compiled in and
    the marker set on the running thread, an image whose requested mode
    has an unknown bit is accepted; [pax_elf] returns 0 and logs
    nothing. *)
Lemma pax_elf_rejects_counterexample :
  validation_fails (sample_config true) sample_header sample_engines
    (sample_image 0 0x10000000) 10 /\
  pax_elf (sample_config true) sample_header sample_engines 10
    (sample_image 0 0x10000000) (sample_state 0x80000040) =
  Done 0 (sample_state 0x80000040) [].
Proof.
  split.
  - left. vm_compute. discriminate.
  - vm_compute. reflexivity.
Qed.

Lemma pax_elf_rejects_witness :
  not_short_circuited (sample_config true) sample_header 10 (sample_state 0) /\
  validation_fails (sample_config true) sample_header sample_engines
    (sample_image 0 0x10000000) 10 /\
  exists setup kfmt ufmt arg,
    pax_elf (sample_config true) sample_header sample_engines 10
      (sample_image 0 0x10000000) (sample_state 0) =
      Done ENOEXEC (sample_state 0)
        (setup ++ [EvLogKernel (PAX_LOG_DEFAULT sample_header) kfmt (Some arg);
                   EvLogUser ufmt (Some arg)]) /\
    Forall (fun e => is_lock_op e = false)
      (trace_of (pax_elf (sample_config true) sample_header sample_engines 10
                   (sample_image 0 0x10000000) (sample_state 0))).
Proof.
  assert (Hpast : not_short_circuited (sample_config true) sample_header 10
                    (sample_state 0)).
  { apply (not_short_circuited_running_thread (sample_config true)
             sample_header 10 (sample_state 0)
             {| td_proc := 1; td_pax := 0 |});
      try reflexivity.
    intros _. apply sample_state_debug_checks. }
  assert (Hfail : validation_fails (sample_config true) sample_header
                    sample_engines (sample_image 0 0x10000000) 10).
  { left. vm_compute. discriminate. }
  split; [exact Hpast |]. split; [exact Hfail |].
  exact (pax_elf_rejects (sample_config true) sample_header sample_engines 10
           (sample_image 0 0x10000000) (sample_state 0) Hpast Hfail).
Defined.

Lemma pax_get_requested_flags_both_witness :
  PAX_CONTROL_ACL (sample_config true) = true /\
  PAX_CONTROL_EXTATTR (sample_config true) = true /\
  Z.land 0x80000080 (PAX_NOTE_PREFER_ACL sample_header) <> 0 /\
  pax_get_requested_flags (sample_config true) sample_header
    (sample_image 0x80000080 0x40) = 0x80000080.
Proof.
  assert (Hm : Z.land 0x80000080 (PAX_NOTE_PREFER_ACL sample_header) <> 0).
  { vm_compute. discriminate. }
  split; [reflexivity |]. split; [reflexivity |]. split; [exact Hm |].
  exact (proj1 (pax_get_requested_flags_both (sample_config true)
                  sample_header (sample_image 0x80000080 0x40)
                  eq_refl eq_refl) Hm).
Defined.

Lemma pax_validate_flags_unknown_bits_witness :
  0 <= 0x10000040 < 2 ^ pax_flag_bits sample_header /\
  exists i, 0 <= i /\ Z.testbit 0x10000040 i = true /\
            Z.testbit (PAX_NOTE_ALL sample_header) i = false.
Proof.
  assert (Hm : 0 <= 0x10000040 < 2 ^ pax_flag_bits sample_header).
  { simpl. lia. }
  split; [exact Hm |].
  apply (proj1 (proj2 (pax_validate_flags_unknown_bits sample_header
                         0x10000040 Hm))).
  reflexivity.
Defined.

Lemma pax_check_conflicting_modes_pairs_witness :
  0 <= 0xc0 < 2 ^ pax_flag_bits sample_header /\
  exists i, 0 <= i /\
    Z.testbit (PAX_NOTE_ALL_ENABLED sample_header) i = true /\
    Z.testbit (PAX_NOTE_ALL_DISABLED sample_header) (i + 1) = true /\
    Z.testbit 0xc0 i = true /\ Z.testbit 0xc0 (i + 1) = true.
Proof.
  assert (Hm : 0 <= 0xc0 < 2 ^ pax_flag_bits sample_header).
  { simpl. lia. }
  split; [exact Hm |].
  apply (proj1 (proj2 (pax_check_conflicting_modes_pairs sample_header
                         0xc0 Hm))).
  reflexivity.
Defined.

Lemma sample_state_commit_ready pax : commit_ready (sample_state pax) 1 10.
Proof.
  split; [reflexivity |]. split.
  - exists {| td_proc := 1; td_pax := pax |}. split; reflexivity.
  - exists {| p_pax := pax; p_threads := [10%N; 11%N] |}.
    split; [reflexivity |].
    intros td0 [<- | [<- | []]];
      exists {| td_proc := 1; td_pax := pax |}; reflexivity.
Defined.

Lemma pax_set_flags_commits_witness :
  commit_ready (sample_state 0) 1 10 /\
  exists s',
    pax_set_flags (sample_config true) 1 10 0x555 (sample_state 0) =
      Done tt s' [EvProcLock 1; EvProcUnlock 1] /\
    threads_agree s' 1 /\
    pax_get_flags (sample_config true) 1 s' = Done 0x555 s' [].
Proof.
  split; [apply sample_state_commit_ready |].
  destruct (pax_set_flags_commits (sample_config true) (sample_state 0) 1 10
              0x555 (sample_state_commit_ready 0))
    as (s' & pr' & Hrun & _ & _ & _ & _ & Hagree & Hget).
  exists s'. auto.
Defined.

Lemma pax_elf_commit_keeps_marker_witness :
  acl_override (sample_config true) = true /\
  0 < PAX_NOTE_PREFER_ACL sample_header < 2 ^ pax_flag_bits sample_header /\
  pax_elf (sample_config true) sample_header sample_engines 10
    (sample_image 0x80000080 0) (sample_state 0) =
  Done 0 (sample_state 0x80000595)
    [EvCall "pax_aslr_setup_flags" 0x80;
     EvCall "pax_disallow_map32bit_setup_flags" 0x400;
     EvCall "pax_noexec_setup_flags" 0x5;
     EvCall "pax_segvguard_setup_flags" 0x10;
     EvCall "pax_hardening_setup_flags" 0x100;
     EvKtr "%s : flags = %x mode = %x";
     EvProcLock 1; EvProcUnlock 1;
     EvLogKernel 0
       "the process started with non-default hardening settings" None] /\
  (prefers_acl sample_header
     (committed_flags (sample_config true) sample_header sample_engines
        (sample_image 0x80000080 0) 10) = true <->
   prefers_acl sample_header
     (pax_get_requested_flags (sample_config true) sample_header
        (sample_image 0x80000080 0)) = true).
Proof.
  assert (HP : 0 < PAX_NOTE_PREFER_ACL sample_header
               < 2 ^ pax_flag_bits sample_header).
  { simpl. lia. }
  assert (Hrun :
    pax_elf (sample_config true) sample_header sample_engines 10
      (sample_image 0x80000080 0) (sample_state 0) =
    Done 0 (sample_state 0x80000595)
      [EvCall "pax_aslr_setup_flags" 0x80;
       EvCall "pax_disallow_map32bit_setup_flags" 0x400;
       EvCall "pax_noexec_setup_flags" 0x5;
       EvCall "pax_segvguard_setup_flags" 0x10;
       EvCall "pax_hardening_setup_flags" 0x100;
       EvKtr "%s : flags = %x mode = %x";
       EvProcLock 1; EvProcUnlock 1;
       EvLogKernel 0
         "the process started with non-default hardening settings" None]).
  { vm_compute. reflexivity. }
  split; [reflexivity |]. split; [exact HP |]. split; [exact Hrun |].
  apply (pax_elf_commit_keeps_marker (sample_config true) sample_header
           sample_engines 10 (sample_image 0x80000080 0) (sample_state 0)
           _ _ eq_refl HP Hrun).
  simpl. auto 10.
Defined.

Lemma pax_elf_short_circuit_witness :
  acl_override (sample_config true) = true /\
  ks_curthread (sample_state 0x80000040) = 10%N /\
  ks_threads (sample_state 0x80000040) !! 10%N =
    Some {| td_proc := 1; td_pax := 0x80000040 |} /\
  debug_checks_hold (sample_state 0x80000040) 10 /\
  prefers_acl sample_header 0x80000040 = true /\
  pax_elf (sample_config true) sample_header sample_engines 10
    (sample_image 0 0x10000000) (sample_state 0x80000040) =
  Done 0 (sample_state 0x80000040) [].
Proof.
  split; [reflexivity |]. split; [reflexivity |]. split; [reflexivity |].
  split; [apply sample_state_debug_checks |]. split; [reflexivity |].
  exact (proj1 (pax_elf_short_circuit (sample_config true) sample_header
                  sample_engines 10 (sample_image 0 0x10000000)
                  (sample_state 0x80000040)
                  {| td_proc := 1; td_pax := 0x80000040 |}
                  eq_refl eq_refl eq_refl
                  (fun _ => sample_state_debug_checks 0x80000040)
                  eq_refl)).
Defined.

Lemma pax_feature_validate_state_normalizes_witness :
  pax_feature_validate_state sample_header 2 = (true, 2) /\
  pax_feature_validate_state sample_header 7 =
    (false, PAX_FEATURE_FORCE_ENABLED sample_header) /\
  pax_feature_simple_validate_state sample_header 7 =
    (false, PAX_FEATURE_SIMPLE_ENABLED sample_header).
Proof.
  split; [| split].
  - apply (proj1 (pax_feature_validate_state_normalizes sample_header 2)).
    simpl. auto.
  - apply (proj1 (proj2
             (pax_feature_validate_state_normalizes sample_header 7))).
    simpl. intros [Hx | [Hx | [Hx | [Hx | []]]]]; discriminate Hx.
  - apply (proj1 (proj2 (proj2 (proj2 (proj2
             (pax_feature_validate_state_normalizes sample_header 7)))))).
    simpl. intros [Hx | [Hx | []]]; discriminate Hx.
Defined.

Lemma pax_handle_prison_param_invalid_witness :
  sample_copyopt [("hardening.pax.aslr.status", 7)]
    "hardening.pax.aslr.status" = (0, 7) /\
  fst (pax_feature_validate_state sample_header 7) = false /\
  pax_handle_prison_param (sample_config true) sample_header _
    sample_copyopt [("hardening.pax.aslr.status", 7)]
    "hardening.pax.aslr.status" 2 = (0, 2).
Proof.
  split; [reflexivity |]. split; [reflexivity |].
  exact (proj1 (pax_handle_prison_param_invalid (sample_config true)
                  sample_header _ sample_copyopt
                  [("hardening.pax.aslr.status", 7)]
                  "hardening.pax.aslr.status" 2)
           7 eq_refl eq_refl).
Defined.

Lemma pax_init_prison_short_circuits_witness :
  all_succeeded
    (calls_of (trace_of
       (pax_init_prison (sample_config true) _ _ sample_prison_engines 0 7
          [("hardening.pax.pageexec.status", 9)] ∅))) = false /\
  exists s',
    pax_init_prison (sample_config true) _ _ sample_prison_engines 0 7
      [("hardening.pax.pageexec.status", 9)] ∅ =
    Done false s'
      (trace_of
         (pax_init_prison (sample_config true) _ _ sample_prison_engines 0 7
            [("hardening.pax.pageexec.status", 9)] ∅)).
Proof.
  split; [reflexivity |].
  apply (proj2 (proj2 (proj2
           (pax_init_prison_short_circuits (sample_config true) _ _
              sample_prison_engines 0 7
              [("hardening.pax.pageexec.status", 9)] ∅)))).
  - reflexivity.
  - right. discriminate.
Defined.

(** * The further properties on the sample kernel *)

Lemma sample_state_queue_belongs pax : queue_belongs (sample_state pax) 1.
Proof.
  intros pr Hp. inversion Hp; subst pr. simpl.
  intros td0 [<- | [<- | []]];
    exists {| td_proc := 1; td_pax := pax |}; split; reflexivity.
Defined.

Lemma sample_image_passes (acl : Z) :
  acl = 0 \/ acl = 0x80000080 ->
  ~ validation_fails (sample_config true) sample_header sample_engines
      (sample_image acl 0) 10.
Proof.
  intros [-> | ->] [Hx | [Hx | [Hx | Hx]]]; apply Hx; reflexivity.
Defined.

Lemma sample_not_short_circuited :
  not_short_circuited (sample_config true) sample_header 10 (sample_state 0).
Proof.
  apply (not_short_circuited_running_thread (sample_config true)
           sample_header 10 (sample_state 0) {| td_proc := 1; td_pax := 0 |});
    try reflexivity.
  intros _. apply sample_state_debug_checks.
Defined.

Lemma validators_accept_submask_witness :
  Z.land 0x40 0x555 = 0x40 /\
  pax_validate_flags sample_header 0x40 = 0 /\
  pax_check_conflicting_modes sample_header 0x40 = 0.
Proof.
  split; [reflexivity |].
  destruct (validators_accept_submask sample_header 0x40 0x555 eq_refl)
    as [Hv Hc].
  split; [apply Hv | apply Hc]; reflexivity.
Defined.


Lemma pax_get_flags_checks_invariant_witness :
  INVARIANTS (sample_config true) = true /\
  HBSD_DEBUG (sample_config true) = true /\
  threads_agree (sample_state 0x555) 1.
Proof.
  split; [reflexivity |]. split; [reflexivity |].
  apply (proj1 (pax_get_flags_checks_invariant (sample_config true) 1
                  (sample_state 0x555) eq_refl eq_refl)).
  exists 0x555, (sample_state 0x555), []. vm_compute. reflexivity.
Defined.

Lemma pax_set_flags_frame_witness :
  commit_ready (sample_state 0) 1 10 /\
  ks_procs (sample_state 0) !! 1%N =
    Some {| p_pax := 0; p_threads := [10%N; 11%N] |} /\
  exists s',
    pax_set_flags (sample_config true) 1 10 0x555 (sample_state 0) =
      Done tt s' [EvProcLock 1; EvProcUnlock 1] /\
    ks_curthread s' = ks_curthread (sample_state 0) /\
    (forall q, q <> 1%N -> ks_procs s' !! q = ks_procs (sample_state 0) !! q).
Proof.
  split; [apply sample_state_commit_ready |]. split; [reflexivity |].
  destruct (pax_set_flags_frame (sample_config true) (sample_state 0) 1 10
              0x555 {| p_pax := 0; p_threads := [10%N; 11%N] |}
              (sample_state_commit_ready 0) eq_refl)
    as (s' & Hrun & Hcur & Hprocs & _).
  exists s'. auto.
Defined.

Lemma pax_set_flags_overwrites_witness :
  commit_ready (sample_state 0) 1 10 /\
  exists s1 s2,
    pax_set_flags (sample_config true) 1 10 0x555 (sample_state 0) =
      Done tt s1 [EvProcLock 1; EvProcUnlock 1] /\
    pax_set_flags (sample_config true) 1 10 0x595 s1 =
      Done tt s2 [EvProcLock 1; EvProcUnlock 1] /\
    pax_set_flags (sample_config true) 1 10 0x595 (sample_state 0) =
      Done tt s2 [EvProcLock 1; EvProcUnlock 1].
Proof.
  split; [apply sample_state_commit_ready |].
  exact (pax_set_flags_overwrites (sample_config true) (sample_state 0) 1 10
           0x555 0x595 (sample_state_commit_ready 0)).
Defined.


Lemma pax_set_then_get_td_witness :
  commit_ready (sample_state 0) 1 10 /\
  In 10%N [10%N; 11%N] /\
  queue_belongs (sample_state 0) 1 /\
  exists s',
    pax_set_flags (sample_config true) 1 10 0x555 (sample_state 0) =
      Done tt s' [EvProcLock 1; EvProcUnlock 1] /\
    pax_get_flags_td (sample_config true) 10 s' = Done 0x555 s' [].
Proof.
  assert (Hin : In 10%N [10%N; 11%N]) by (left; reflexivity).
  split; [apply sample_state_commit_ready |]. split; [exact Hin |].
  split; [apply sample_state_queue_belongs |].
  exact (pax_set_then_get_td (sample_config true) (sample_state 0) 1 10 0x555
           {| p_pax := 0; p_threads := [10%N; 11%N] |}
           (sample_state_commit_ready 0) eq_refl Hin
           (sample_state_queue_belongs 0)).
Defined.

Lemma sample_pinned_run :
  pax_elf (sample_config true) sample_header sample_engines 10
    (sample_image 0x80000080 0) (sample_state 0) =
  Done 0 (sample_state 0x80000595) sample_pinned_trace.
Proof. vm_compute. reflexivity. Defined.

Lemma sample_pinned_run_locks :
  In (EvProcLock (imgp_proc (sample_image 0x80000080 0))) sample_pinned_trace.
Proof. simpl. auto 10. Defined.

Lemma pax_elf_outcomes_witness :
  pax_elf (sample_config true) sample_header sample_engines 10
    (sample_image 0 0xc0) (sample_state 0x555) =
  Done ENOEXEC (sample_state 0x555)
    [EvLogKernel 0 "inconsistent paxflags: %x" (Some 0xc0);
     EvLogUser "inconsistent paxflags: %x\n" (Some 0xc0)] /\
  (ENOEXEC = 0 \/ ENOEXEC = ENOEXEC) /\
  (ENOEXEC = ENOEXEC -> sample_state 0x555 = sample_state 0x555).
Proof.
  assert (Hrun :
    pax_elf (sample_config true) sample_header sample_engines 10
      (sample_image 0 0xc0) (sample_state 0x555) =
    Done ENOEXEC (sample_state 0x555)
      [EvLogKernel 0 "inconsistent paxflags: %x" (Some 0xc0);
       EvLogUser "inconsistent paxflags: %x\n" (Some 0xc0)]).
  { vm_compute. reflexivity. }
  split; [exact Hrun |].
  destruct (pax_elf_outcomes (sample_config true) sample_header
              sample_engines 10 (sample_image 0 0xc0) (sample_state 0x555)
              _ _ _ Hrun) as (Hrc & Hsame & _).
  split; assumption.
Defined.

Lemma pax_elf_commits_known_bits_witness :
  pax_elf (sample_config true) sample_header sample_engines 10
    (sample_image 0x80000080 0) (sample_state 0) =
  Done 0 (sample_state 0x80000595) sample_pinned_trace /\
  In (EvProcLock (imgp_proc (sample_image 0x80000080 0)))
     sample_pinned_trace /\
  exists pr',
    ks_procs (sample_state 0x80000595) !! 1%N = Some pr' /\
    p_pax pr' =
      committed_flags (sample_config true) sample_header sample_engines
        (sample_image 0x80000080 0) 10 /\
    pax_validate_flags sample_header (p_pax pr') = 0.
Proof.
  split; [exact sample_pinned_run |]. split; [exact sample_pinned_run_locks |].
  exact (pax_elf_commits_known_bits (sample_config true) sample_header
           sample_engines 10 (sample_image 0x80000080 0) (sample_state 0)
           _ _ sample_pinned_run sample_pinned_run_locks).
Defined.

Lemma pax_elf_commits_no_conflict_witness :
  Z.land (PAX_NOTE_PREFER_ACL sample_header)
         (PAX_NOTE_ALL_ENABLED sample_header) = 0 /\
  Z.land (PAX_NOTE_PREFER_ACL sample_header)
         (PAX_NOTE_ALL_DISABLED sample_header) = 0 /\
  pax_elf (sample_config true) sample_header sample_engines 10
    (sample_image 0x80000080 0) (sample_state 0) =
  Done 0 (sample_state 0x80000595) sample_pinned_trace /\
  In (EvProcLock (imgp_proc (sample_image 0x80000080 0)))
     sample_pinned_trace /\
  exists pr',
    ks_procs (sample_state 0x80000595) !! 1%N = Some pr' /\
    p_pax pr' =
      committed_flags (sample_config true) sample_header sample_engines
        (sample_image 0x80000080 0) 10 /\
    pax_check_conflicting_modes sample_header (p_pax pr') = 0.
Proof.
  split; [reflexivity |]. split; [reflexivity |].
  split; [exact sample_pinned_run |]. split; [exact sample_pinned_run_locks |].
  exact (pax_elf_commits_no_conflict (sample_config true) sample_header
           sample_engines 10 (sample_image 0x80000080 0) (sample_state 0)
           _ _ eq_refl eq_refl sample_pinned_run sample_pinned_run_locks).
Defined.

Lemma pax_elf_rejects_mode_early_witness :
  not_short_circuited (sample_config true) sample_header 10 (sample_state 0) /\
  pax_check_conflicting_modes sample_header
    (pax_get_requested_flags (sample_config true) sample_header
       (sample_image 0 0xc0)) <> 0 /\
  pax_elf (sample_config true) sample_header sample_engines 10
    (sample_image 0 0xc0) (sample_state 0) =
  Done ENOEXEC (sample_state 0)
    [EvLogKernel 0 "inconsistent paxflags: %x" (Some 0xc0);
     EvLogUser "inconsistent paxflags: %x\n" (Some 0xc0)].
Proof.
  assert (Hbad : pax_check_conflicting_modes sample_header
                   (pax_get_requested_flags (sample_config true)
                      sample_header (sample_image 0 0xc0)) <> 0).
  { vm_compute. discriminate. }
  split; [exact sample_not_short_circuited |]. split; [exact Hbad |].
  exact (pax_elf_rejects_mode_early (sample_config true) sample_header
           sample_engines 10 (sample_image 0 0xc0) (sample_state 0)
           sample_not_short_circuited (or_intror Hbad)).
Defined.

Lemma pax_elf_commit_trace_witness :
  not_short_circuited (sample_config true) sample_header 10 (sample_state 0) /\
  ~ validation_fails (sample_config true) sample_header sample_engines
      (sample_image 0 0) 10 /\
  commit_ready (sample_state 0) 1 10 /\
  exists s',
    pax_elf (sample_config true) sample_header sample_engines 10
      (sample_image 0 0) (sample_state 0) =
    Done 0 s'
      [EvCall "pax_aslr_setup_flags" 0x40;
       EvCall "pax_disallow_map32bit_setup_flags" 0x400;
       EvCall "pax_noexec_setup_flags" 0x5;
       EvCall "pax_segvguard_setup_flags" 0x10;
       EvCall "pax_hardening_setup_flags" 0x100;
       EvKtr "%s : flags = %x mode = %x";
       EvProcLock 1; EvProcUnlock 1].
Proof.
  split; [exact sample_not_short_circuited |].
  split; [exact (sample_image_passes 0 (or_introl eq_refl)) |].
  split; [apply sample_state_commit_ready |].
  exact (pax_elf_commit_trace (sample_config true) sample_header
           sample_engines 10 (sample_image 0 0) (sample_state 0)
           sample_not_short_circuited
           (sample_image_passes 0 (or_introl eq_refl))
           (sample_state_commit_ready 0)).
Defined.

Lemma pax_elf_pin_is_sticky_witness :
  acl_override (sample_config true) = true /\
  0 < PAX_NOTE_PREFER_ACL sample_header < 2 ^ pax_flag_bits sample_header /\
  prefers_acl sample_header
    (pax_get_requested_flags (sample_config true) sample_header
       (sample_image 0x80000080 0)) = true /\
  exists s' tr,
    pax_elf (sample_config true) sample_header sample_engines 10
      (sample_image 0x80000080 0) (sample_state 0) = Done 0 s' tr /\
    forall imgp',
      pax_elf (sample_config true) sample_header sample_engines 10 imgp' s' =
      Done 0 s' [].
Proof.
  assert (HP : 0 < PAX_NOTE_PREFER_ACL sample_header
               < 2 ^ pax_flag_bits sample_header) by (simpl; lia).
  split; [reflexivity |]. split; [exact HP |]. split; [reflexivity |].
  exact (pax_elf_pin_is_sticky (sample_config true) sample_header
           sample_engines 10 (sample_image 0x80000080 0) (sample_state 0)
           {| p_pax := 0; p_threads := [10%N; 11%N] |}
           eq_refl HP sample_not_short_circuited
           (sample_image_passes 0x80000080 (or_intror eq_refl))
           (sample_state_commit_ready 0) eq_refl
           (or_introl eq_refl) (sample_state_queue_belongs 0) eq_refl).
Defined.

Lemma pax_elf_commits_witness :
  not_short_circuited (sample_config true) sample_header 10 (sample_state 0) /\
  ~ validation_fails (sample_config true) sample_header sample_engines
      (sample_image 0 0) 10 /\
  commit_ready (sample_state 0) 1 10 /\
  exists s' tr pr',
    pax_elf (sample_config true) sample_header sample_engines 10
      (sample_image 0 0) (sample_state 0) = Done 0 s' tr /\
    ks_procs s' !! 1%N = Some pr' /\
    p_pax pr' =
      committed_flags (sample_config true) sample_header sample_engines
        (sample_image 0 0) 10 /\
    threads_agree s' 1.
Proof.
  split; [exact sample_not_short_circuited |].
  split; [exact (sample_image_passes 0 (or_introl eq_refl)) |].
  split; [apply sample_state_commit_ready |].
  destruct (pax_elf_commits (sample_config true) sample_header
              sample_engines 10 (sample_image 0 0) (sample_state 0)
              sample_not_short_circuited
              (sample_image_passes 0 (or_introl eq_refl))
              (sample_state_commit_ready 0))
    as (s' & tr & pr' & Hrun & _ & Hp & Hpax & Hagree).
  exists s', tr, pr'. auto.
Defined.

Lemma pax_status_str_covers_states_witness :
  Forall (fun x => 0 <= x) (feature_states sample_header) /\
  NoDup (feature_states sample_header) /\
  Forall (fun x => 0 <= x) (simple_feature_states sample_header) /\
  NoDup (simple_feature_states sample_header) /\
  table_entry (pax_status_str sample_header) 2 = Some (Some "opt-out") /\
  exists name,
    table_entry (pax_status_str sample_header)
      (snd (pax_feature_validate_state sample_header 7)) = Some (Some name).
Proof.
  assert (Hpos : Forall (fun x => 0 <= x) (feature_states sample_header)).
  { repeat constructor; simpl; lia. }
  assert (Hnd : NoDup (feature_states sample_header)).
  { repeat (constructor; [rewrite list_elem_of_In; simpl; lia |]).
    constructor. }
  assert (Hpos' : Forall (fun x => 0 <= x)
                    (simple_feature_states sample_header)).
  { repeat constructor; simpl; lia. }
  assert (Hnd' : NoDup (simple_feature_states sample_header)).
  { repeat (constructor; [rewrite list_elem_of_In; simpl; lia |]).
    constructor. }
  split; [exact Hpos |]. split; [exact Hnd |].
  split; [exact Hpos' |]. split; [exact Hnd' |].
  destruct (pax_status_str_covers_states sample_header Hpos Hnd Hpos' Hnd')
    as ((_ & _ & Hout & _) & _ & Hany & _).
  split; [exact Hout | exact (Hany 7)].
Defined.
